(** * Journal note store: linked list of notes and its Flask backend

    Shallow embedding of [app.py]: the [NotesLinkedList] class (a singly
    linked list of note dictionaries with a [size] counter) and the parts of
    [JournalAppBackend] that persist the list and serve the soft-delete,
    restore, permanent-delete and calendar routes. *)

From Stdlib Require Import ZArith String Ascii List.
From stdpp Require Import base option list gmap strings.

Open Scope Z_scope.

(** ** Notes

    A note is the dictionary stored in [Node.data].  The keys read with
    [data['k']] ([id], [mood], [date], [text]) are plain fields; the keys read
    with [data.get('k')] ([photos], [deleted]) may be missing from the
    dictionary, which is [None] here.  [title] is stored but never read. *)

Record note := Note {
  n_id : Z;
  n_text : string;
  n_mood : string;
  n_date : string;
  n_title : string;
  n_photos : option (list string);
  n_deleted : option bool
}.

(** [data.get('deleted')] used as a condition: a missing key gives [None],
    which is falsy. *)
Definition deleted_truthy (n : note) : bool :=
  match n_deleted n with
  | Some b => b
  | None => false
  end.

(** [data.get('photos')] used as a condition: a missing key and the empty
    list are both falsy. *)
Definition photos_truthy (n : note) : bool :=
  match n_photos n with
  | Some (_ :: _) => true
  | _ => false
  end.

(** [data['deleted'] = b]: every other key keeps its value. *)
Definition set_deleted (b : bool) (n : note) : note :=
  {| n_id := n_id n; n_text := n_text n; n_mood := n_mood n;
     n_date := n_date n; n_title := n_title n; n_photos := n_photos n;
     n_deleted := Some b |}.

(** The dictionary appended by [get_notes_with_photos] for one photo. *)
Record photo := Photo {
  src : string;
  p_mood : string;
  p_date : string;
  p_text : string;
  note_id : Z;
  p_deleted : bool
}.

(** ** The linked list

    The chain of [Node] objects reachable from [head] through [next] is a
    list of the notes they hold: [None] is the empty list and a node is its
    [data] followed by the chain of its [next].  Every node holds a
    dictionary of its own, as in the backend, where each one comes fresh out
    of the JSON decoder. *)

Module NotesLinkedList.

Record t := Make {
  head : list note;
  size : Z
}.

(** [__init__] *)
Definition init : t := {| head := []; size := 0 |}.

Definition add_note (note_data : note) (self : t) : t :=
  {| head := note_data :: head self; size := size self + 1 |}.

(** The [while current.next] loop of [delete_note]: [chain] is
    [current.next]; the result is the new [current.next] when a node was
    unlinked and [None] when the loop ran off the end. *)
Fixpoint delete_loop (note_id : Z) (chain : list note) : option (list note) :=
  match chain with
  | [] => None
  | nxt :: rest =>
      if n_id nxt =? note_id then Some rest
      else match delete_loop note_id rest with
           | Some rest' => Some (nxt :: rest')
           | None => None
           end
  end.

Definition delete_note (note_id : Z) (self : t) : bool * t :=
  match head self with
  | [] => (false, self)
  | first :: rest =>
      if n_id first =? note_id then
        (true, {| head := rest; size := size self - 1 |})
      else
        match delete_loop note_id rest with
        | Some rest' => (true, {| head := first :: rest'; size := size self - 1 |})
        | None => (false, self)
        end
  end.

(** [split('T')[0]]: the characters before the first ['T']. *)
Fixpoint date_portion (s : string) : string :=
  match s with
  | EmptyString => EmptyString
  | String c s' =>
      if Ascii.eqb c "T"%char then EmptyString else String c (date_portion s')
  end.

Fixpoint get_notes_by_date_loop (target_date : string) (current : list note)
    (notes : list note) : list note :=
  match current with
  | [] => notes
  | data :: next =>
      let note_date := date_portion (n_date data) in
      get_notes_by_date_loop target_date next
        (if String.eqb note_date target_date then notes ++ [data] else notes)
  end.

Definition get_notes_by_date (target_date : string) (self : t) : list note :=
  get_notes_by_date_loop target_date (head self) [].

Fixpoint get_all_notes_loop (current : list note) (notes : list note) : list note :=
  match current with
  | [] => notes
  | data :: next => get_all_notes_loop next (notes ++ [data])
  end.

Definition get_all_notes (self : t) : list note :=
  get_all_notes_loop (head self) [].

(** The inner [for photo_data in current.data['photos']] loop. *)
Fixpoint photos_of_note_loop (n : note) (ps : list string) (photos : list photo)
  : list photo :=
  match ps with
  | [] => photos
  | photo_data :: ps' =>
      photos_of_note_loop n ps'
        (photos ++ [{| src := photo_data; p_mood := n_mood n; p_date := n_date n;
                       p_text := n_text n; note_id := n_id n;
                       p_deleted := match n_deleted n with
                                    | Some b => b
                                    | None => false
                                    end |}])
  end.

Fixpoint get_notes_with_photos_loop (current : list note) (photos : list photo)
  : list photo :=
  match current with
  | [] => photos
  | data :: next =>
      get_notes_with_photos_loop next
        (if photos_truthy data
         then photos_of_note_loop data (default [] (n_photos data)) photos
         else photos)
  end.

Definition get_notes_with_photos (self : t) : list photo :=
  get_notes_with_photos_loop (head self) [].

Fixpoint get_deleted_notes_loop (current : list note) (deleted : list note)
  : list note :=
  match current with
  | [] => deleted
  | data :: next =>
      get_deleted_notes_loop next
        (if deleted_truthy data then deleted ++ [data] else deleted)
  end.

Definition get_deleted_notes (self : t) : list note :=
  get_deleted_notes_loop (head self) [].

(** The loop of [restore_note]: the chain after the assignment when a node
    matched, [None] when the loop ran off the end. *)
Fixpoint restore_loop (note_id : Z) (current : list note) : option (list note) :=
  match current with
  | [] => None
  | data :: next =>
      if (n_id data =? note_id) && deleted_truthy data
      then Some (set_deleted false data :: next)
      else match restore_loop note_id next with
           | Some next' => Some (data :: next')
           | None => None
           end
  end.

Definition restore_note (note_id : Z) (self : t) : bool * t :=
  match restore_loop note_id (head self) with
  | Some chain => (true, {| head := chain; size := size self |})
  | None => (false, self)
  end.

End NotesLinkedList.

(** ** Exceptions and calendar dates

    The routes wrap their bodies in [try ... except Exception], so a raised
    exception is a value.  Dates follow Python's [datetime.date]: a year in
    [MINYEAR..MAXYEAR], a month in [1..12] and a day that exists in that
    month; they are ordered as the triple (year, month, day). *)

Inductive exn := ValueError | OverflowError.

Inductive result (A : Type) : Type :=
  | Ok (a : A)
  | Raise (e : exn).
Arguments Ok {A} a.
Arguments Raise {A} e.

#[global] Instance result_bind : MBind result :=
  fun A B (k : A -> result B) (r : result A) =>
    match r with
    | Ok a => k a
    | Raise e => Raise e
    end.

Record pydate := PyDate {
  year : Z;
  month : Z;
  day : Z
}.

Definition MINYEAR : Z := 1.
Definition MAXYEAR : Z := 9999.

Definition is_leap (y : Z) : bool :=
  (y mod 4 =? 0) && (negb (y mod 100 =? 0) || (y mod 400 =? 0)).

Definition days_in_month (y m : Z) : Z :=
  if m =? 2 then (if is_leap y then 29 else 28)
  else if (m =? 4) || (m =? 6) || (m =? 9) || (m =? 11) then 30
  else 31.

(** The range check of a date's fields, [ValueError] where it fails. *)
Definition check_date_args (y m d : Z) : result pydate :=
  if (MINYEAR <=? y) && (y <=? MAXYEAR) then
    if (1 <=? m) && (m <=? 12) then
      if (1 <=? d) && (d <=? days_in_month y m) then Ok (PyDate y m d)
      else Raise ValueError
    else Raise ValueError
  else Raise ValueError.

(** The constructor takes its arguments as C integers: one that does not
    fit raises [OverflowError] before any range check. *)
Definition C_INT_MIN : Z := -2147483648.
Definition C_INT_MAX : Z := 2147483647.

Definition fits_c_int (z : Z) : bool :=
  (C_INT_MIN <=? z) && (z <=? C_INT_MAX).

(** [datetime(y, m, d).date()] *)
Definition mk_date (y m d : Z) : result pydate :=
  if fits_c_int y && fits_c_int m && fits_c_int d then check_date_args y m d
  else Raise OverflowError.

(** [d - timedelta(days=1)]: the previous calendar day; before the first day
    of [MINYEAR] Python raises [OverflowError]. *)
Definition minus_one_day (d : pydate) : result pydate :=
  if 1 <? day d then Ok (PyDate (year d) (month d) (day d - 1))
  else if 1 <? month d then
    Ok (PyDate (year d) (month d - 1) (days_in_month (year d) (month d - 1)))
  else if MINYEAR <? year d then Ok (PyDate (year d - 1) 12 31)
  else Raise OverflowError.

(** [a <= b] on dates. *)
Definition date_le (a b : pydate) : bool :=
  (year a <? year b)
  || ((year a =? year b)
      && ((month a <? month b)
          || ((month a =? month b) && (day a <=? day b)))).

(** A reader of the strict [YYYY-MM-DD] form, one possible behaviour of
    [datetime.fromisoformat] on a date-portion. *)
Definition digit_of (c : ascii) : option Z :=
  let k := Z.of_N (N_of_ascii c) in
  if (48 <=? k) && (k <=? 57) then Some (k - 48) else None.

Fixpoint digits_value (cs : list ascii) (acc : Z) : option Z :=
  match cs with
  | [] => Some acc
  | c :: cs' =>
      match digit_of c with
      | Some v => digits_value cs' (10 * acc + v)
      | None => None
      end
  end.

Definition iso_fields (s : string) : option (Z * Z * Z) :=
  match list_ascii_of_string s with
  | [y1; y2; y3; y4; d1; m1; m2; d2; a1; a2] =>
      if Ascii.eqb d1 "-"%char && Ascii.eqb d2 "-"%char then
        match digits_value [y1; y2; y3; y4] 0,
              digits_value [m1; m2] 0,
              digits_value [a1; a2] 0 with
        | Some y, Some m, Some d => Some (y, m, d)
        | _, _, _ => None
        end
      else None
  | _ => None
  end.

(** [d.isoformat()] for a date, [YYYY-MM-DD] with leading zeros. *)
Definition digit_char (n : Z) : ascii :=
  ascii_of_N (Z.to_N (48 + n mod 10)).

Definition pad2 (n : Z) : string :=
  String (digit_char (n / 10)) (String (digit_char n) EmptyString).

Definition pad4 (n : Z) : string :=
  String (digit_char (n / 1000)) (String (digit_char (n / 100)) (pad2 n)).

Definition date_isoformat (d : pydate) : string :=
  String.append (pad4 (year d))
    (String "-" (String.append (pad2 (month d)) (String "-" (pad2 (day d))))).

(** [d - timedelta(days=k)], day by day. *)
Fixpoint minus_days (k : nat) (d : pydate) : result pydate :=
  match k with
  | O => Ok d
  | S k' => d' ← minus_one_day d; minus_days k' d'
  end.

(** ** The backend *)

(** How a write of [journal_data.json] ends: the dump ran to its end; it
    failed after [open(..., 'w')] had emptied the file (a text [json.dump]
    cannot encode, a full disk), which leaves no readable JSON; or the file
    could not be opened and is as it was. *)
Inductive write_outcome := Written | Truncated | NotOpened.

(** What [journal_data.json] holds: nothing (the file does not exist), bytes
    that [json.load] rejects, or the list of records that [json.dump] wrote
    ([json.load] reads back the records [json.dump] was given). *)
Inductive file :=
  | Absent
  | Unreadable
  | Stored (notes_data : list note).

(** The value under a date key of the calendar: [{'notes': [...]}]. *)
Record day_entry := DayEntry { notes : list note }.

(** The JSON bodies of the modelled routes, paired with the status code. *)
Inductive body :=
  | Message (s : string)
  | Error (s : string)
  | ErrorOf (e : exn)
  | CalendarData (calendar_data : gmap string day_entry)
  | NoteList (l : list note).

Definition response : Type := body * Z.

(** The JSON object of a [POST /api/notes] request: each key may be
    missing. *)
Record note_request := NoteRequest {
  r_id : option Z;
  r_text : option string;
  r_mood : option string;
  r_date : option string;
  r_title : option string;
  r_photos : option (list string);
  r_deleted : option bool
}.

(** [d.get(k)] used as a condition, for a string and for an integer. *)
Definition string_truthy (o : option string) : bool :=
  match o with
  | Some (String _ _) => true
  | _ => false
  end.

Definition int_truthy (o : option Z) : bool :=
  match o with
  | Some z => negb (z =? 0)
  | None => false
  end.

(** The bodies of [POST /api/notes]. *)
Inductive post_body :=
  | Success (note_data : note)
  | PostError (s : string).

Module JournalAppBackend.

Record t := Make {
  notes_list : NotesLinkedList.t;
  data_file : file
}.

(** [for note in reversed(notes_data): self.notes_list.add_note(note)] *)
Definition load_loop (notes_data : list note) (l : NotesLinkedList.t)
  : NotesLinkedList.t :=
  fold_left (fun l note => NotesLinkedList.add_note note l) (rev notes_data) l.

Definition load_data (self : t) : t :=
  match data_file self with
  | Absent => self
  | Unreadable => self
  | Stored notes_data =>
      {| notes_list := load_loop notes_data (notes_list self);
         data_file := data_file self |}
  end.

(** [save_data] catches what the write raises and only prints it: the
    list is kept, the file is what the write [w] left. *)
Definition save_data (w : write_outcome) (self : t) : t :=
  let all_notes := NotesLinkedList.get_all_notes (notes_list self) in
  {| notes_list := notes_list self;
     data_file := match w with
                  | Written => Stored all_notes
                  | Truncated => Unreadable
                  | NotOpened => data_file self
                  end |}.

(** [__init__] on a disk holding [f]. *)
Definition init (f : file) : t :=
  load_data {| notes_list := NotesLinkedList.init; data_file := f |}.

(** The loop of the [DELETE /api/notes/<id>] route: the chain after the
    assignment when a node matched, [None] when the loop ran off the end. *)
Fixpoint delete_note_loop (note_id : Z) (current : list note) : option (list note) :=
  match current with
  | [] => None
  | data :: next =>
      if n_id data =? note_id then Some (set_deleted true data :: next)
      else match delete_note_loop note_id next with
           | Some next' => Some (data :: next')
           | None => None
           end
  end.

(** [DELETE /api/notes/<int:note_id>]: soft delete; [w] is how the write
    of [save_data] ends when the route reaches it. *)
Definition delete_note (w : write_outcome) (note_id : Z) (self : t) : response * t :=
  match delete_note_loop note_id (NotesLinkedList.head (notes_list self)) with
  | Some chain =>
      ((Message "Moved to trash", 200),
       save_data w {| notes_list :=
                      {| NotesLinkedList.head := chain;
                         NotesLinkedList.size := NotesLinkedList.size (notes_list self) |};
                    data_file := data_file self |})
  | None => ((Error "Not found", 404), self)
  end.

(** [POST /api/trash/<int:note_id>/restore] *)
Definition restore_note (w : write_outcome) (note_id : Z) (self : t) : response * t :=
  let '(found, l) := NotesLinkedList.restore_note note_id (notes_list self) in
  if found then
    ((Message "Note restored", 200),
     save_data w {| notes_list := l; data_file := data_file self |})
  else ((Error "Not found in trash", 404),
        {| notes_list := l; data_file := data_file self |}).

(** [DELETE /api/trash/<int:note_id>] *)
Definition permanently_delete (w : write_outcome) (note_id : Z) (self : t)
  : response * t :=
  let '(found, l) := NotesLinkedList.delete_note note_id (notes_list self) in
  if found then
    ((Message "Permanently deleted", 200),
     save_data w {| notes_list := l; data_file := data_file self |})
  else ((Error "Not found", 404),
        {| notes_list := l; data_file := data_file self |}).

(** [GET /api/trash] *)
Definition get_trash (self : t) : response :=
  (NoteList (NotesLinkedList.get_deleted_notes (notes_list self)), 200).

Section Calendar.

(** The year, month and day that [datetime.fromisoformat] reads off a
    string, [None] where it rejects the string.  Which strings it accepts
    depends on the Python version, so the reader is a parameter. *)
Variable isoformat_fields : string -> option (Z * Z * Z).

(** [datetime.fromisoformat(s).date()] *)
Definition fromisoformat (s : string) : result pydate :=
  match isoformat_fields s with
  | Some (y, m, d) => check_date_args y m d
  | None => Raise ValueError
  end.

(** [start_date] and [end_date] of the route. *)
Definition month_range (y m : Z) : result (pydate * pydate) :=
  start_date ← mk_date y m 1;
  end_date ← (if m =? 12
              then first ← mk_date (y + 1) 1 1; minus_one_day first
              else first ← mk_date y (m + 1) 1; minus_one_day first);
  Ok (start_date, end_date).

(** The two statements under [if start_date <= note_dt <= end_date]. *)
Definition calendar_add (note_date : string) (data : note)
    (calendar_data : gmap string day_entry) : gmap string day_entry :=
  let calendar_data1 :=
    match calendar_data !! note_date with
    | None => <[note_date := {| notes := [] |}]> calendar_data
    | Some _ => calendar_data
    end in
  alter (fun e => {| notes := notes e ++ [data] |}) note_date calendar_data1.

Fixpoint calendar_loop (start_date end_date : pydate) (current : list note)
    (calendar_data : gmap string day_entry) : result (gmap string day_entry) :=
  match current with
  | [] => Ok calendar_data
  | data :: next =>
      if deleted_truthy data then
        calendar_loop start_date end_date next calendar_data
      else
        let note_date := NotesLinkedList.date_portion (n_date data) in
        note_dt ← fromisoformat note_date;
        if date_le start_date note_dt && date_le note_dt end_date then
          calendar_loop start_date end_date next
            (calendar_add note_date data calendar_data)
        else
          calendar_loop start_date end_date next calendar_data
  end.

(** [GET /api/calendar/<int:year>/<int:month>] *)
Definition get_calendar_data (y m : Z) (self : t) : response :=
  match (range ← month_range y m;
         calendar_loop (fst range) (snd range)
           (NotesLinkedList.head (notes_list self)) ∅) with
  | Ok calendar_data => (CalendarData calendar_data, 200)
  | Raise e => (ErrorOf e, 500)
  end.

End Calendar.

(** [GET /api/notes], [date_filter] being [request.args.get('date')]. *)
Definition get_notes (date_filter : option string) (self : t) : response :=
  if string_truthy date_filter
  then (NoteList (NotesLinkedList.get_notes_by_date (default EmptyString date_filter)
                    (notes_list self)), 200)
  else (NoteList (NotesLinkedList.get_all_notes (notes_list self)), 200).

(** [POST /api/notes]; [now_iso] is [datetime.now().isoformat()] and
    [now_ms] is [int(datetime.now().timestamp() * 1000)], as read when the
    route needs them, and [w] is how the write of [save_data] ends. *)
Definition add_note (w : write_outcome) (now_iso : string) (now_ms : Z)
    (note_data : note_request) (self : t) : (post_body * Z) * t :=
  if negb (string_truthy (r_text note_data)) || negb (string_truthy (r_mood note_data))
  then ((PostError "Text and mood required", 400), self)
  else
    let stored :=
      {| n_id := if int_truthy (r_id note_data)
                 then default 0 (r_id note_data) else now_ms;
         n_text := default EmptyString (r_text note_data);
         n_mood := default EmptyString (r_mood note_data);
         n_date := if string_truthy (r_date note_data)
                   then default EmptyString (r_date note_data) else now_iso;
         n_title := match r_title note_data with
                    | Some title => title
                    | None => EmptyString
                    end;
         n_photos := match r_photos note_data with
                     | Some photos => Some photos
                     | None => Some []
                     end;
         n_deleted := match r_deleted note_data with
                      | Some deleted => Some deleted
                      | None => Some false
                      end |} in
    ((Success stored, 201),
     save_data w {| notes_list := NotesLinkedList.add_note stored (notes_list self);
                  data_file := data_file self |}).

Section Photos.

Variable isoformat_fields : string -> option (Z * Z * Z).

(** The date filter of [get_photos] on one photo: [true] where the loop
    takes a [continue]. *)
Definition date_filter_skips (date_filter : string) (today : pydate)
    (photo_date : string) : result bool :=
  if String.eqb date_filter "today"
     && negb (String.eqb photo_date (date_isoformat today))
  then Ok true
  else if String.eqb date_filter "week" then
    week_ago ← minus_days 7 today;
    Ok (String.ltb photo_date (date_isoformat week_ago))
  else if String.eqb date_filter "month" then
    photo_dt ← fromisoformat isoformat_fields photo_date;
    Ok (negb (month photo_dt =? month today) || negb (year photo_dt =? year today))
  else Ok false.

Fixpoint get_photos_loop (date_filter mood_filter : string) (today : pydate)
    (all_photos : list photo) (filtered : list photo) : result (list photo) :=
  match all_photos with
  | [] => Ok filtered
  | photo :: rest =>
      if p_deleted photo then
        get_photos_loop date_filter mood_filter today rest filtered
      else
        let photo_date := NotesLinkedList.date_portion (p_date photo) in
        skip ← date_filter_skips date_filter today photo_date;
        if (skip : bool) then get_photos_loop date_filter mood_filter today rest filtered
        else if negb (String.eqb mood_filter "all")
                && negb (String.eqb (p_mood photo) mood_filter)
        then get_photos_loop date_filter mood_filter today rest filtered
        else get_photos_loop date_filter mood_filter today rest (filtered ++ [photo])
  end.

(** [GET /api/photos]; the arguments are [request.args.get('date_filter')]
    and [request.args.get('mood_filter')], [today] is
    [datetime.now().date()].  The route has no handler of its own: an
    exception leaves it. *)
Definition get_photos (date_filter mood_filter : option string) (today : pydate)
    (self : t) : result (list photo) :=
  get_photos_loop (default "all"%string date_filter) (default "all"%string mood_filter)
    today (NotesLinkedList.get_notes_with_photos (notes_list self)) [].

End Photos.

End JournalAppBackend.

(** ** Operation sequences *)

(** A sequence of [add_note] calls, first call first. *)
Definition add_notes (ns : list note) (l : NotesLinkedList.t) : NotesLinkedList.t :=
  fold_left (fun l n => NotesLinkedList.add_note n l) ns l.

(** The two operations that change the length of the chain. *)
Inductive list_op :=
  | AddNote (n : note)
  | DeleteNote (note_id : Z).

Definition run_list_op (o : list_op) (l : NotesLinkedList.t) : NotesLinkedList.t :=
  match o with
  | AddNote n => NotesLinkedList.add_note n l
  | DeleteNote i => snd (NotesLinkedList.delete_note i l)
  end.

Definition run_list_ops (os : list list_op) (l : NotesLinkedList.t) : NotesLinkedList.t :=
  fold_left (fun l o => run_list_op o l) os l.

(** The two id lookups of the trash routes, and a sequence of them on one
    id: the answers, first call first, and the final list. *)
Inductive lookup_op := RestoreNote | PurgeNote.

Definition run_lookup (note_id : Z) (o : lookup_op) (l : NotesLinkedList.t)
  : bool * NotesLinkedList.t :=
  match o with
  | RestoreNote => NotesLinkedList.restore_note note_id l
  | PurgeNote => NotesLinkedList.delete_note note_id l
  end.

Fixpoint run_lookups (note_id : Z) (os : list lookup_op) (l : NotesLinkedList.t)
  : list bool * NotesLinkedList.t :=
  match os with
  | [] => ([], l)
  | o :: os' =>
      let '(found, l1) := run_lookup note_id o l in
      let '(founds, l2) := run_lookups note_id os' l1 in
      (found :: founds, l2)
  end.

(** How many notes of a chain carry an id. *)
Definition occurrences (note_id : Z) (chain : list note) : nat :=
  length (List.filter (fun n => n_id n =? note_id) chain).

(** The records [get_notes_with_photos] makes of one note. *)
Definition photo_records (n : note) : list photo :=
  List.map (fun photo_data =>
              {| src := photo_data; p_mood := n_mood n; p_date := n_date n;
                 p_text := n_text n; note_id := n_id n;
                 p_deleted := deleted_truthy n |})
           (default [] (n_photos n)).

(** The routes that change the backend, and a sequence of calls: each
    call leaves the backend of its answer. *)
Inductive route_call :=
  | PostNote (w : write_outcome) (now_iso : string) (now_ms : Z)
      (note_data : note_request)
  | SoftDelete (w : write_outcome) (note_id : Z)
  | Restore (w : write_outcome) (note_id : Z)
  | Purge (w : write_outcome) (note_id : Z).

Definition run_route (c : route_call) (app : JournalAppBackend.t)
  : Z * JournalAppBackend.t :=
  match c with
  | PostNote w now_iso now_ms note_data =>
      let answer := JournalAppBackend.add_note w now_iso now_ms note_data app in
      (snd (fst answer), snd answer)
  | SoftDelete w i =>
      let answer := JournalAppBackend.delete_note w i app in
      (snd (fst answer), snd answer)
  | Restore w i =>
      let answer := JournalAppBackend.restore_note w i app in
      (snd (fst answer), snd answer)
  | Purge w i =>
      let answer := JournalAppBackend.permanently_delete w i app in
      (snd (fst answer), snd answer)
  end.

(** How the write of a call ends, if the call gets to write. *)
Definition call_outcome (c : route_call) : write_outcome :=
  match c with
  | PostNote w _ _ _ => w
  | SoftDelete w _ => w
  | Restore w _ => w
  | Purge w _ => w
  end.

Definition written (w : write_outcome) : bool :=
  match w with
  | Written => true
  | _ => false
  end.

(** The file after a write of [all_notes] that ends as [w], [old] being the
    file before. *)
Definition file_after (w : write_outcome) (all_notes : list note) (old : file) : file :=
  match w with
  | Written => Stored all_notes
  | Truncated => Unreadable
  | NotOpened => old
  end.

Definition run_routes (cs : list route_call) (app : JournalAppBackend.t)
  : JournalAppBackend.t :=
  fold_left (fun app c => snd (run_route c app)) cs app.

(** What the [POST] route stores: text and mood not empty, the [photos]
    and [deleted] keys present. *)
Definition complete (n : note) : bool :=
  negb (String.eqb (n_text n) EmptyString)
  && negb (String.eqb (n_mood n) EmptyString)
  && match n_photos n with Some _ => true | None => false end
  && match n_deleted n with Some _ => true | None => false end.

(** The notes of a chain under a date-portion, a mood, and a date read in a
    year and month. *)
Definition has_date (target_date : string) (n : note) : bool :=
  String.eqb (NotesLinkedList.date_portion (n_date n)) target_date.

(** The [YYYY-MM-DD] form has no ['T']. *)
Fixpoint no_T (s : string) : bool :=
  match s with
  | EmptyString => true
  | String c s' => negb (Ascii.eqb c "T"%char) && no_T s'
  end.

(** ** The calendar of a month, note by note *)

Section CalendarOfMonth.

Variable isoformat_fields : string -> option (Z * Z * Z).

(** The date-portion [s] is read as a date from [first] to [last]. *)
Definition within (first last : pydate) (s : string) : bool :=
  match JournalAppBackend.fromisoformat isoformat_fields s with
  | Ok d => date_le first d && date_le d last
  | Raise _ => false
  end.

(** The notes of a chain under date key [k]: not deleted, with date-portion
    [k], dated from [first] to [last]; in chain order. *)
Definition day_notes (first last : pydate) (k : string) (chain : list note)
  : list note :=
  List.filter
    (fun n =>
       negb (deleted_truthy n)
       && String.eqb (NotesLinkedList.date_portion (n_date n)) k
       && within first last (NotesLinkedList.date_portion (n_date n)))
    chain.

(** The route reads the date of every note that is not deleted: [n] is
    deleted or its date-portion is accepted. *)
Definition readable (n : note) : bool :=
  deleted_truthy n
  || match JournalAppBackend.fromisoformat isoformat_fields
             (NotesLinkedList.date_portion (n_date n)) with
     | Ok _ => true
     | Raise _ => false
     end.

(** The entry under a key after the loop went over a chain whose notes for
    that key are [l], from the entry [o] before it. *)
Definition entry_after (o : option day_entry) (l : list note) : option day_entry :=
  match o with
  | Some e => Some {| notes := notes e ++ l |}
  | None =>
      match l with
      | [] => None
      | _ :: _ => Some {| notes := l |}
      end
  end.

End CalendarOfMonth.

(** The date-portion [s] is read as a date of year [y] and month [m]. *)
Definition dated_in (isoformat_fields : string -> option (Z * Z * Z)) (y m : Z)
    (s : string) : bool :=
  match JournalAppBackend.fromisoformat isoformat_fields s with
  | Ok d => (year d =? y) && (month d =? m)
  | Raise _ => false
  end.

(** The years and months for which the calendar route finds a first and a
    last day. *)
Definition month_served (y m : Z) : bool :=
  (MINYEAR <=? y) && (y <=? MAXYEAR) && (1 <=? m) && (m <=? 12)
  && negb ((y =? MAXYEAR) && (m =? 12)).

(** The date-portion of a photo record, the mood filter on it, and the
    records whose date the [month] filter can read: deleted ones are skipped
    before their date is looked at. *)
Definition photo_day (p : photo) : string :=
  NotesLinkedList.date_portion (p_date p).

Definition mood_passes (mood_filter : string) (p : photo) : bool :=
  String.eqb mood_filter "all" || String.eqb (p_mood p) mood_filter.

Definition photo_readable (isoformat_fields : string -> option (Z * Z * Z))
    (p : photo) : bool :=
  p_deleted p
  || match JournalAppBackend.fromisoformat isoformat_fields (photo_day p) with
     | Ok _ => true
     | Raise _ => false
     end.

(** A note whose date no reader accepts as [YYYY-MM-DD]. *)
Definition note_undated : note :=
  Note 9 "Soon" "hopeful" "tomorrow" EmptyString (Some []) (Some false).

(** ** Sample data *)

Definition note_a : note :=
  Note 1 "Good day" "happy" "2024-02-29T10:00:00" EmptyString (Some ["p1"; "p2"; "p3"]%string) (Some false).

Definition note_b : note :=
  Note 2 "Rain" "sad" "2024-03-01T08:30:00" "Monday" (Some []) (Some false).

(** A second note with the id of [note_a], its optional keys missing. *)
Definition note_a_again : note :=
  Note 1 "Again" "calm" "2024-03-02T09:00:00" EmptyString None None.

Definition note_trashed : note :=
  Note 7 "Old" "tired" "2023-12-31T23:59:59" EmptyString (Some ["q"]%string) (Some true).

Definition two_notes : NotesLinkedList.t :=
  NotesLinkedList.Make [note_b; note_a] 2.

Definition same_id_twice : NotesLinkedList.t :=
  NotesLinkedList.Make [note_a_again; note_a] 2.


Definition small_journal : JournalAppBackend.t :=
  JournalAppBackend.Make (NotesLinkedList.Make [note_b; note_a; note_trashed] 3)
    (Stored [note_b; note_a; note_trashed]).

(** A request with the two required keys only, and one without mood. *)
Definition request_minimal : note_request :=
  NoteRequest None (Some "Good day"%string) (Some "happy"%string) None None None None.

Definition request_no_mood : note_request :=
  NoteRequest (Some 5) (Some "Good day"%string) None None None None None.

(** A note with a photo and a date no reader accepts. *)
Definition note_undated_photo : note :=
  Note 11 "Later" "calm" "next week" EmptyString (Some ["r"]%string) (Some false).

Definition photo_journal : JournalAppBackend.t :=
  JournalAppBackend.Make (NotesLinkedList.Make [note_a; note_trashed] 2) Absent.

(** ** Traversals *)

Lemma get_all_notes_loop_app current acc :
  NotesLinkedList.get_all_notes_loop current acc = acc ++ current.
Proof.
  revert acc. induction current as [|data next IH]; intros acc; simpl.
  - by rewrite app_nil_r.
  - by rewrite IH, <- app_assoc.
Qed.

Lemma get_all_notes_head l :
  NotesLinkedList.get_all_notes l = NotesLinkedList.head l.
Proof. unfold NotesLinkedList.get_all_notes. apply get_all_notes_loop_app. Qed.

Lemma get_deleted_notes_loop_filter current acc :
  NotesLinkedList.get_deleted_notes_loop current acc
  = acc ++ List.filter deleted_truthy current.
Proof.
  revert acc. induction current as [|data next IH]; intros acc; simpl.
  - by rewrite app_nil_r.
  - rewrite IH. destruct (deleted_truthy data); [|done].
    by rewrite <- app_assoc.
Qed.

Lemma get_deleted_notes_filter l :
  NotesLinkedList.get_deleted_notes l
  = List.filter deleted_truthy (NotesLinkedList.head l).
Proof. unfold NotesLinkedList.get_deleted_notes. apply get_deleted_notes_loop_filter. Qed.

Lemma photos_of_note_loop_app n ps acc :
  NotesLinkedList.photos_of_note_loop n ps acc
  = acc ++ List.map (fun photo_data =>
                       {| src := photo_data; p_mood := n_mood n; p_date := n_date n;
                          p_text := n_text n; note_id := n_id n;
                          p_deleted := deleted_truthy n |}) ps.
Proof.
  revert acc. induction ps as [|p ps IH]; intros acc; simpl.
  - by rewrite app_nil_r.
  - rewrite IH, <- app_assoc. done.
Qed.

Lemma get_notes_with_photos_loop_app current acc :
  NotesLinkedList.get_notes_with_photos_loop current acc
  = acc ++ flat_map photo_records current.
Proof.
  revert acc. induction current as [|data next IH]; intros acc; simpl.
  - by rewrite app_nil_r.
  - rewrite IH. unfold photos_truthy, photo_records.
    destruct (n_photos data) as [[|p ps]|]; simpl.
    + done.
    + rewrite photos_of_note_loop_app. simpl. by rewrite <- !app_assoc.
    + done.
Qed.

Lemma add_notes_head ns l :
  NotesLinkedList.head (add_notes ns l) = rev ns ++ NotesLinkedList.head l.
Proof.
  revert l. induction ns as [|n ns IH]; intros l; simpl; [done|].
  unfold add_notes in *. simpl. rewrite IH. simpl.
  by rewrite <- app_assoc.
Qed.

Lemma add_notes_size ns l :
  NotesLinkedList.size (add_notes ns l)
  = NotesLinkedList.size l + Z.of_nat (length ns).
Proof.
  revert l. induction ns as [|n ns IH]; intros l.
  - simpl. lia.
  - unfold add_notes in *. simpl fold_left. rewrite IH. simpl. lia.
Qed.

(** ** Scans by id *)

Lemma occurrences_cons i n l :
  occurrences i (n :: l)
  = ((if (n_id n =? i)%Z then 1 else 0) + occurrences i l)%nat.
Proof. unfold occurrences. simpl. by destruct (n_id n =? i). Qed.

Lemma occurrences_app i l1 l2 :
  occurrences i (l1 ++ l2) = (occurrences i l1 + occurrences i l2)%nat.
Proof. unfold occurrences. by rewrite List.filter_app, length_app. Qed.

Lemma occurrences_zero i l :
  occurrences i l = 0%nat <-> forall n, n ∈ l -> n_id n <> i.
Proof.
  induction l as [|m l IH]; rewrite ?occurrences_cons.
  - split; [intros _ n Hn; inversion Hn | done].
  - destruct (Z.eqb_spec (n_id m) i) as [He|Hne]; split.
    + intros H. lia.
    + intros H. exfalso. apply (H m); [left | done].
    + intros H n Hn. change (occurrences i l = 0%nat) in H.
      inversion Hn; subst; [done | by apply (proj1 IH H)].
    + intros H. change (occurrences i l = 0%nat).
      apply IH. intros n Hn. apply H. by right.
Qed.

(** [delete_note] is one scan of the whole chain: the special case for the
    head and the look-ahead loop together unlink the first node with the id. *)
Lemma delete_note_scan i l :
  NotesLinkedList.delete_note i l
  = match NotesLinkedList.delete_loop i (NotesLinkedList.head l) with
    | Some chain =>
        (true, {| NotesLinkedList.head := chain;
                  NotesLinkedList.size := NotesLinkedList.size l - 1 |})
    | None => (false, l)
    end.
Proof.
  unfold NotesLinkedList.delete_note.
  destruct (NotesLinkedList.head l) as [|first rest]; simpl; [done|].
  destruct (n_id first =? i); [done|].
  by destruct (NotesLinkedList.delete_loop i rest).
Qed.

Lemma delete_loop_Some i l chain :
  NotesLinkedList.delete_loop i l = Some chain ->
  exists l1 n l2,
    l = l1 ++ n :: l2 /\ n_id n = i /\ occurrences i l1 = 0%nat
    /\ chain = l1 ++ l2.
Proof.
  revert chain. induction l as [|m l IH]; intros chain; simpl; [done|].
  destruct (Z.eqb_spec (n_id m) i) as [He|Hne].
  - intros [= <-]. by exists [], m, l.
  - destruct (NotesLinkedList.delete_loop i l) as [rest'|]; [|done].
    intros [= <-]. destruct (IH rest' eq_refl) as (l1 & n & l2 & -> & Hn & H1 & ->).
    exists (m :: l1), n, l2. repeat split; [done|].
    rewrite occurrences_cons. destruct (Z.eqb_spec (n_id m) i); [done | lia].
Qed.

Lemma delete_loop_None i l :
  NotesLinkedList.delete_loop i l = None <-> occurrences i l = 0%nat.
Proof.
  induction l as [|m l IH]; simpl; [done|].
  rewrite occurrences_cons.
  destruct (n_id m =? i).
  - split; [done | lia].
  - destruct (NotesLinkedList.delete_loop i l); simpl.
    + split; [done|]. intros H. by apply IH in H.
    + split; [|done]. intros _. by apply IH.
Qed.

Lemma restore_loop_Some i l chain :
  NotesLinkedList.restore_loop i l = Some chain ->
  exists l1 n l2,
    l = l1 ++ n :: l2 /\ n_id n = i /\ n_deleted n = Some true
    /\ forallb (fun m => negb ((n_id m =? i) && deleted_truthy m)) l1 = true
    /\ chain = l1 ++ set_deleted false n :: l2.
Proof.
  revert chain. induction l as [|m l IH]; intros chain; simpl; [done|].
  destruct ((n_id m =? i) && deleted_truthy m) eqn:Hm.
  - intros [= <-]. apply andb_true_iff in Hm as [Hi Hd].
    exists [], m, l. repeat split; [lia|].
    unfold deleted_truthy in Hd. by destruct (n_deleted m) as [[]|].
  - destruct (NotesLinkedList.restore_loop i l) as [next'|]; [|done].
    intros [= <-]. destruct (IH next' eq_refl) as (l1 & n & l2 & -> & Hn & Hd & H1 & ->).
    exists (m :: l1), n, l2. repeat split; [done..|].
    simpl. by rewrite Hm, H1.
Qed.


Lemma restore_loop_absent i l :
  occurrences i l = 0%nat -> NotesLinkedList.restore_loop i l = None.
Proof.
  induction l as [|m l IH]; [done|].
  rewrite occurrences_cons. simpl.
  destruct (n_id m =? i); simpl; [lia|].
  intros H. by rewrite IH.
Qed.

Lemma delete_note_loop_Some i l chain :
  JournalAppBackend.delete_note_loop i l = Some chain ->
  exists l1 n l2,
    l = l1 ++ n :: l2 /\ n_id n = i /\ occurrences i l1 = 0%nat
    /\ chain = l1 ++ set_deleted true n :: l2.
Proof.
  revert chain. induction l as [|m l IH]; intros chain; simpl; [done|].
  destruct (Z.eqb_spec (n_id m) i) as [He|Hne].
  - intros [= <-]. by exists [], m, l.
  - destruct (JournalAppBackend.delete_note_loop i l) as [next'|]; [|done].
    intros [= <-]. destruct (IH next' eq_refl) as (l1 & n & l2 & -> & Hn & H1 & ->).
    exists (m :: l1), n, l2. repeat split; [done|].
    rewrite occurrences_cons. destruct (Z.eqb_spec (n_id m) i); [done | lia].
Qed.

Lemma delete_note_loop_None i l :
  JournalAppBackend.delete_note_loop i l = None <-> occurrences i l = 0%nat.
Proof.
  induction l as [|m l IH]; simpl; [done|].
  rewrite occurrences_cons.
  destruct (n_id m =? i).
  - split; [done | lia].
  - destruct (JournalAppBackend.delete_note_loop i l); simpl.
    + split; [done|]. intros H. by apply IH in H.
    + split; [|done]. intros _. by apply IH.
Qed.

(** The scans on a chain where the id sits at a known place. *)
Lemma delete_note_loop_at i l1 n l2 :
  occurrences i l1 = 0%nat -> n_id n = i ->
  JournalAppBackend.delete_note_loop i (l1 ++ n :: l2)
  = Some (l1 ++ set_deleted true n :: l2).
Proof.
  intros H1 Hn. induction l1 as [|m l1 IH]; simpl.
  - by rewrite (proj2 (Z.eqb_eq _ _) Hn).
  - rewrite occurrences_cons in H1.
    destruct (n_id m =? i); [lia|]. by rewrite IH.
Qed.

Lemma restore_loop_at i l1 n l2 :
  occurrences i l1 = 0%nat -> n_id n = i -> deleted_truthy n = true ->
  NotesLinkedList.restore_loop i (l1 ++ n :: l2)
  = Some (l1 ++ set_deleted false n :: l2).
Proof.
  intros H1 Hn Hd. induction l1 as [|m l1 IH]; simpl.
  - by rewrite (proj2 (Z.eqb_eq _ _) Hn), Hd.
  - rewrite occurrences_cons in H1.
    destruct (n_id m =? i); [lia|]. simpl. by rewrite IH.
Qed.

(** ** Insertion order and the size counter *)

(** C1: after any sequence of [add_note] calls on an empty list,
    [get_all_notes] returns the added notes in reverse order of insertion,
    so its first element is the note added last. *)
Theorem add_notes_reverse_order (ns : list note) :
  NotesLinkedList.get_all_notes (add_notes ns NotesLinkedList.init) = rev ns
  /\ head (NotesLinkedList.get_all_notes (add_notes ns NotesLinkedList.init))
     = last ns.
Proof.
  rewrite get_all_notes_head, add_notes_head. simpl. rewrite app_nil_r.
  split; [done|].
  destruct ns as [|n ns] using rev_ind; [done|].
  by rewrite rev_unit, last_snoc.
Qed.

Lemma delete_note_length i l :
  match NotesLinkedList.delete_note i l with
  | (true, l') =>
      NotesLinkedList.size l' = NotesLinkedList.size l - 1
      /\ S (length (NotesLinkedList.head l')) = length (NotesLinkedList.head l)
  | (false, l') => l' = l
  end.
Proof.
  rewrite delete_note_scan.
  destruct (NotesLinkedList.delete_loop i (NotesLinkedList.head l)) as [chain|] eqn:H;
    [|done].
  apply delete_loop_Some in H as (l1 & n & l2 & -> & _ & _ & ->).
  simpl. split; [done|]. rewrite !length_app. simpl. lia.
Qed.

Lemma run_list_ops_size os l :
  NotesLinkedList.size l = Z.of_nat (length (NotesLinkedList.head l)) ->
  NotesLinkedList.size (run_list_ops os l)
  = Z.of_nat (length (NotesLinkedList.head (run_list_ops os l))).
Proof.
  revert l. induction os as [|o os IH]; intros l Hl; [done|].
  unfold run_list_ops in *. simpl fold_left. apply IH.
  destruct o as [n|i]; simpl.
  - rewrite Hl. lia.
  - pose proof (delete_note_length i l) as Hd.
    destruct (NotesLinkedList.delete_note i l) as [[|] l']; simpl.
    + destruct Hd as [-> Hlen]. lia.
    + by subst.
Qed.

(** C10: after any sequence of [add_note] and [delete_note] calls on an
    empty list, [size] is the number of nodes reachable from [head]; from such
    a list a further [add_note] adds one to both, a [delete_note] that returns
    [True] takes one from both, and one that returns [False] leaves the list
    as it was. *)
Theorem size_counts_nodes (os : list list_op) :
  let l := run_list_ops os NotesLinkedList.init in
  NotesLinkedList.size l = Z.of_nat (length (NotesLinkedList.head l))
  /\ (forall n,
        NotesLinkedList.size (NotesLinkedList.add_note n l) = NotesLinkedList.size l + 1
        /\ length (NotesLinkedList.head (NotesLinkedList.add_note n l))
           = S (length (NotesLinkedList.head l)))
  /\ (forall i,
        match NotesLinkedList.delete_note i l with
        | (true, l') =>
            NotesLinkedList.size l' = NotesLinkedList.size l - 1
            /\ S (length (NotesLinkedList.head l')) = length (NotesLinkedList.head l)
        | (false, l') => l' = l
        end).
Proof.
  intros l. split; [|split].
  - by apply run_list_ops_size.
  - done.
  - intros i. apply delete_note_length.
Qed.

Lemma delete_loop_at i l1 n l2 :
  occurrences i l1 = 0%nat -> n_id n = i ->
  NotesLinkedList.delete_loop i (l1 ++ n :: l2) = Some (l1 ++ l2).
Proof.
  intros H1 Hn. induction l1 as [|m l1 IH]; simpl.
  - by rewrite (proj2 (Z.eqb_eq _ _) Hn).
  - rewrite occurrences_cons in H1.
    destruct (n_id m =? i); [lia|]. by rewrite IH.
Qed.

(** C4: two notes [a] and [b] with one id can both be added, with any
    notes [ns] added between them and any notes [ms] of other ids added after
    them; all are in the list and in [get_all_notes], and [delete_note] on
    that id unlinks [b], the one added last, wherever it stands behind [ms],
    and leaves [a] and every other note where they were. *)
Theorem same_id_both_kept (l : NotesLinkedList.t) (a b : note) (ns ms : list note) :
  n_id a = n_id b ->
  occurrences (n_id a) ms = 0%nat ->
  let l2 := add_notes ms (NotesLinkedList.add_note b
                            (add_notes ns (NotesLinkedList.add_note a l))) in
  NotesLinkedList.get_all_notes l2
  = rev ms ++ b :: rev ns ++ a :: NotesLinkedList.get_all_notes l
  /\ NotesLinkedList.size l2
     = NotesLinkedList.size l + 2 + Z.of_nat (length ms) + Z.of_nat (length ns)
  /\ fst (NotesLinkedList.delete_note (n_id a) l2) = true
  /\ NotesLinkedList.get_all_notes (snd (NotesLinkedList.delete_note (n_id a) l2))
     = rev ms ++ rev ns ++ a :: NotesLinkedList.get_all_notes l
  /\ NotesLinkedList.size (snd (NotesLinkedList.delete_note (n_id a) l2))
     = NotesLinkedList.size l2 - 1.
Proof.
  intros Hid Hms l2.
  assert (Hhead : NotesLinkedList.head l2
                  = rev ms ++ b :: rev ns ++ a :: NotesLinkedList.head l).
  { unfold l2. rewrite add_notes_head. simpl. by rewrite add_notes_head. }
  assert (Hrev : occurrences (n_id a) (rev ms) = 0%nat).
  { apply occurrences_zero. intros m Hm.
    apply (proj1 (occurrences_zero _ _) Hms).
    apply list_elem_of_In. apply list_elem_of_In in Hm. by apply in_rev. }
  rewrite delete_note_scan, !get_all_notes_head, Hhead.
  rewrite (delete_loop_at (n_id a) (rev ms) b _ Hrev (eq_sym Hid)). simpl.
  repeat split.
  unfold l2. rewrite add_notes_size. simpl. rewrite add_notes_size. simpl. lia.
Qed.

Lemma same_id_both_kept_witness :
  n_id note_a = n_id note_a_again
  /\ occurrences (n_id note_a) [note_b] = 0%nat
  /\ fst (NotesLinkedList.delete_note 1
            (NotesLinkedList.Make [note_b; note_a_again; note_a] 3)) = true
  /\ NotesLinkedList.get_all_notes
       (snd (NotesLinkedList.delete_note 1
               (NotesLinkedList.Make [note_b; note_a_again; note_a] 3)))
     = [note_b; note_a].
Proof.
  destruct (same_id_both_kept NotesLinkedList.init note_a note_a_again [] [note_b]
              eq_refl eq_refl) as (_ & _ & Hfound & Hrest & _).
  split; [reflexivity|]. split; [reflexivity|].
  split; [exact Hfound | exact Hrest].
Defined.

(** ** Photos *)

(** C9: [get_notes_with_photos] returns, note by note in list order and
    photo by photo in the note's order, one record per photo, holding the
    photo and the note's mood, date, text, id and deleted flag; a note
    contributes as many records as it has photos, none when it has no photo. *)
Theorem photos_flattened (l : NotesLinkedList.t) :
  NotesLinkedList.get_notes_with_photos l
  = flat_map (fun n =>
                List.map (fun photo_data =>
                            Photo photo_data (n_mood n) (n_date n) (n_text n) (n_id n)
                                  (default false (n_deleted n)))
                         (default [] (n_photos n)))
             (NotesLinkedList.head l)
  /\ length (NotesLinkedList.get_notes_with_photos l)
     = sum_list_with (fun n => length (default [] (n_photos n)))
         (NotesLinkedList.head l).
Proof.
  unfold NotesLinkedList.get_notes_with_photos.
  rewrite get_notes_with_photos_loop_app. simpl.
  split; [done|].
  induction (NotesLinkedList.head l) as [|n ns IH]; simpl; [done|].
  rewrite length_app, IH. f_equal.
  unfold photo_records. by rewrite length_map.
Qed.

(** ** Persistence *)

(** C7, as stated, fails for a save whose write fails: [save_data] prints
    the error and goes on, the file is left without readable JSON, and a
    backend started on it holds no note where three were saved. *)
Lemma failed_save_reloads_nothing :
  NotesLinkedList.get_all_notes
    (JournalAppBackend.notes_list
       (JournalAppBackend.init
          (JournalAppBackend.data_file
             (JournalAppBackend.save_data Truncated small_journal)))) = []
  /\ NotesLinkedList.get_all_notes (JournalAppBackend.notes_list small_journal)
     = [note_b; note_a; note_trashed].
Proof. split; reflexivity. Qed.

(** C7 (amended): when the write of [save_data] runs to its end, the file
    holds the notes in list order, and a backend started on it holds the same
    notes in the same order, with [size] their number. *)
Theorem save_load_roundtrip (app : JournalAppBackend.t) :
  let saved := JournalAppBackend.data_file (JournalAppBackend.save_data Written app) in
  let reloaded := JournalAppBackend.notes_list (JournalAppBackend.init saved) in
  saved = Stored (NotesLinkedList.head (JournalAppBackend.notes_list app))
  /\ NotesLinkedList.get_all_notes reloaded
     = NotesLinkedList.get_all_notes (JournalAppBackend.notes_list app)
  /\ NotesLinkedList.size reloaded
     = Z.of_nat (length (NotesLinkedList.get_all_notes (JournalAppBackend.notes_list app))).
Proof.
  intros saved reloaded.
  assert (Hs : saved = Stored (NotesLinkedList.head (JournalAppBackend.notes_list app))).
  { unfold saved, JournalAppBackend.save_data. simpl. by rewrite get_all_notes_head. }
  split; [done|].
  unfold reloaded. rewrite Hs.
  unfold JournalAppBackend.init, JournalAppBackend.load_data.
  cbn [JournalAppBackend.data_file JournalAppBackend.notes_list].
  unfold JournalAppBackend.load_loop.
  fold (add_notes (rev (NotesLinkedList.head (JournalAppBackend.notes_list app)))
          NotesLinkedList.init).
  rewrite !get_all_notes_head, add_notes_head, add_notes_size.
  rewrite rev_involutive, length_rev. simpl.
  by rewrite app_nil_r.
Qed.

(** ** Permanent delete *)

(** C3, as stated, fails where two notes carry the id: [delete_note]
    unlinks the first of them, the second is still returned by
    [get_all_notes], and a second [delete_note] on the id finds it. *)
Lemma delete_note_leaves_second_match :
  fst (NotesLinkedList.delete_note 1 same_id_twice) = true
  /\ NotesLinkedList.get_all_notes (snd (NotesLinkedList.delete_note 1 same_id_twice))
     = [note_a]
  /\ n_id note_a = 1
  /\ fst (NotesLinkedList.delete_note 1
            (snd (NotesLinkedList.delete_note 1 same_id_twice))) = true.
Proof. repeat split. Qed.

Lemma run_lookups_absent i os l :
  occurrences i (NotesLinkedList.head l) = 0%nat ->
  run_lookups i os l = (repeat false (length os), l).
Proof.
  intros H. induction os as [|o os IH]; simpl; [done|].
  assert (Ho : run_lookup i o l = (false, l)).
  { destruct o; simpl.
    - unfold NotesLinkedList.restore_note. by rewrite restore_loop_absent.
    - rewrite delete_note_scan. by rewrite (proj2 (delete_loop_None _ _) H). }
  by rewrite Ho, IH.
Qed.

(** C3 (amended): when at most one note of the list carries the id and
    [delete_note] returns [True], no note with that id is in [get_all_notes]
    or [get_deleted_notes], and every later sequence of [restore_note] and
    [delete_note] calls on that id returns [False] each time and leaves the
    list as it is. *)
Theorem delete_note_terminal (l l' : NotesLinkedList.t) (i : Z) :
  (occurrences i (NotesLinkedList.head l) <= 1)%nat ->
  NotesLinkedList.delete_note i l = (true, l') ->
  Forall (fun n => n_id n <> i) (NotesLinkedList.get_all_notes l')
  /\ Forall (fun n => n_id n <> i) (NotesLinkedList.get_deleted_notes l')
  /\ forall os, run_lookups i os l' = (repeat false (length os), l').
Proof.
  intros Hocc Hdel. rewrite delete_note_scan in Hdel.
  destruct (NotesLinkedList.delete_loop i (NotesLinkedList.head l)) as [chain|] eqn:H;
    [|done].
  injection Hdel as <-.
  apply delete_loop_Some in H as (l1 & n & l2 & Hl & Hn & H1 & ->).
  rewrite Hl, occurrences_app, occurrences_cons in Hocc.
  rewrite (proj2 (Z.eqb_eq _ _) Hn) in Hocc.
  assert (H0 : occurrences i (l1 ++ l2) = 0%nat).
  { rewrite occurrences_app. lia. }
  assert (Hall : forall m, m ∈ l1 ++ l2 -> n_id m <> i)
    by by apply occurrences_zero.
  rewrite get_all_notes_head, get_deleted_notes_filter. simpl.
  split; [|split].
  - by apply Forall_forall.
  - apply Forall_forall. intros m Hm. apply Hall.
    apply list_elem_of_In. apply list_elem_of_In in Hm.
    by apply List.filter_In in Hm as [Hm _].
  - intros os. by apply run_lookups_absent.
Qed.

Lemma delete_note_terminal_witness :
  (occurrences 2 (NotesLinkedList.head two_notes) <= 1)%nat
  /\ Forall (fun n => n_id n <> 2)
       (NotesLinkedList.get_all_notes (NotesLinkedList.Make [note_a] 1))
  /\ run_lookups 2 [RestoreNote; PurgeNote] (NotesLinkedList.Make [note_a] 1)
     = ([false; false], NotesLinkedList.Make [note_a] 1).
Proof.
  assert (Hocc : (occurrences 2 (NotesLinkedList.head two_notes) <= 1)%nat)
    by (vm_compute; lia).
  destruct (delete_note_terminal two_notes (NotesLinkedList.Make [note_a] 1) 2
              Hocc eq_refl) as (Hall & _ & Hlater).
  split; [exact Hocc|]. split; [exact Hall|]. exact (Hlater [RestoreNote; PurgeNote]).
Defined.

(** ** Restore *)


(** ** Soft delete *)



(** C6: for a note whose id no other note of the list carries, the
    soft-delete route followed by the restore route both answer 200 and leave
    that note with its deleted flag [False] and its id, text, mood, date,
    title and photos as before, every other note and the size unchanged,
    however the two writes end. *)
Theorem soft_delete_then_restore (w1 w2 : write_outcome) (app : JournalAppBackend.t)
    (l1 l2 : list note) (n : note) :
  NotesLinkedList.head (JournalAppBackend.notes_list app) = l1 ++ n :: l2 ->
  occurrences (n_id n) (l1 ++ l2) = 0%nat ->
  let trashed := JournalAppBackend.delete_note w1 (n_id n) app in
  let restored := JournalAppBackend.restore_note w2 (n_id n) (snd trashed) in
  fst trashed = (Message "Moved to trash", 200)
  /\ fst restored = (Message "Note restored", 200)
  /\ NotesLinkedList.size (JournalAppBackend.notes_list (snd restored))
     = NotesLinkedList.size (JournalAppBackend.notes_list app)
  /\ exists n',
       NotesLinkedList.head (JournalAppBackend.notes_list (snd restored))
       = l1 ++ n' :: l2
       /\ n_deleted n' = Some false
       /\ n_id n' = n_id n /\ n_text n' = n_text n /\ n_mood n' = n_mood n
       /\ n_date n' = n_date n /\ n_title n' = n_title n
       /\ n_photos n' = n_photos n.
Proof.
  intros Hl Hocc trashed restored.
  rewrite occurrences_app in Hocc.
  assert (H1 : occurrences (n_id n) l1 = 0%nat) by lia.
  assert (Ht : trashed
               = ((Message "Moved to trash", 200),
                  JournalAppBackend.save_data w1
                    {| JournalAppBackend.notes_list :=
                         {| NotesLinkedList.head := l1 ++ set_deleted true n :: l2;
                            NotesLinkedList.size :=
                              NotesLinkedList.size (JournalAppBackend.notes_list app) |};
                       JournalAppBackend.data_file := JournalAppBackend.data_file app |})).
  { unfold trashed, JournalAppBackend.delete_note.
    by rewrite Hl, (delete_note_loop_at _ _ _ _ H1 eq_refl). }
  assert (Hr : fst restored = (Message "Note restored", 200)
               /\ JournalAppBackend.notes_list (snd restored)
                  = {| NotesLinkedList.head :=
                         l1 ++ set_deleted false (set_deleted true n) :: l2;
                       NotesLinkedList.size :=
                         NotesLinkedList.size (JournalAppBackend.notes_list app) |}).
  { unfold restored. rewrite Ht.
    unfold JournalAppBackend.restore_note, NotesLinkedList.restore_note. simpl.
    by rewrite (restore_loop_at (n_id n) l1 (set_deleted true n) l2 H1 eq_refl eq_refl). }
  destruct Hr as [Hr1 Hr2]. rewrite Ht, Hr1, Hr2. simpl. repeat split.
  exists (set_deleted false (set_deleted true n)). by repeat split.
Qed.

Lemma soft_delete_then_restore_witness :
  occurrences (n_id note_a) ([note_b] ++ [note_trashed]) = 0%nat
  /\ fst (JournalAppBackend.restore_note Written 1
            (snd (JournalAppBackend.delete_note Truncated 1 small_journal)))
     = (Message "Note restored", 200).
Proof.
  split; [reflexivity|].
  apply (soft_delete_then_restore Truncated Written small_journal
           [note_b] [note_trashed] note_a);
    reflexivity.
Defined.

(** ** Calendar *)

Lemma check_date_args_Ok y m d :
  MINYEAR <= y <= MAXYEAR -> 1 <= m <= 12 -> 1 <= d <= days_in_month y m ->
  check_date_args y m d = Ok (PyDate y m d).
Proof.
  intros Hy Hm Hd. unfold check_date_args.
  rewrite (proj2 (Z.leb_le _ _) (proj1 Hy)), (proj2 (Z.leb_le _ _) (proj2 Hy)).
  rewrite (proj2 (Z.leb_le _ _) (proj1 Hm)), (proj2 (Z.leb_le _ _) (proj2 Hm)).
  by rewrite (proj2 (Z.leb_le _ _) (proj1 Hd)), (proj2 (Z.leb_le _ _) (proj2 Hd)).
Qed.

Lemma fits_c_int_small z : -1 <= z <= 10000 -> fits_c_int z = true.
Proof. unfold fits_c_int, C_INT_MIN, C_INT_MAX. lia. Qed.

Lemma mk_date_Ok y m d :
  MINYEAR <= y <= MAXYEAR -> 1 <= m <= 12 -> 1 <= d <= 31 ->
  d <= days_in_month y m ->
  mk_date y m d = Ok (PyDate y m d).
Proof.
  intros Hy Hm Hd Hdim. unfold mk_date.
  rewrite !fits_c_int_small by (unfold MINYEAR, MAXYEAR in *; lia).
  apply check_date_args_Ok; lia.
Qed.

Lemma days_in_month_bounds y m : 28 <= days_in_month y m <= 31.
Proof.
  unfold days_in_month.
  destruct (m =? 2); [destruct (is_leap y); lia|].
  destruct ((m =? 4) || (m =? 6) || (m =? 9) || (m =? 11)); lia.
Qed.

(** The range of a month: its first day and its last day, the day before
    the first of the next month, also from December into January. *)
Lemma month_range_Ok {y m} :
  MINYEAR <= y <= MAXYEAR -> 1 <= m <= 12 -> ~ (y = MAXYEAR /\ m = 12) ->
  JournalAppBackend.month_range y m
  = Ok (PyDate y m 1, PyDate y m (days_in_month y m)).
Proof.
  intros Hy Hm Hlast. unfold JournalAppBackend.month_range.
  pose proof (days_in_month_bounds y m) as Hb.
  rewrite (mk_date_Ok y m 1) by lia. simpl.
  destruct (Z.eqb_spec m 12) as [->|Hne].
  - assert (Hy' : y < MAXYEAR) by (unfold MAXYEAR in *; lia).
    pose proof (days_in_month_bounds (y + 1) 1) as Hb'.
    rewrite (mk_date_Ok (y + 1) 1 1) by (unfold MINYEAR, MAXYEAR in *; lia).
    simpl. unfold minus_one_day. simpl.
    destruct (Z.ltb_spec MINYEAR (y + 1)) as [_|Hc];
      [|unfold MINYEAR in *; lia].
    by replace (y + 1 - 1) with y by lia.
  - pose proof (days_in_month_bounds y (m + 1)) as Hb'.
    rewrite (mk_date_Ok y (m + 1) 1) by lia.
    simpl. unfold minus_one_day. simpl.
    destruct (Z.ltb_spec 1 (m + 1)) as [_|Hc]; [|lia].
    by replace (m + 1 - 1) with m by lia.
Qed.

Section CalendarProofs.

Variable isoformat_fields : string -> option (Z * Z * Z).

Lemma calendar_add_lookup nd data (cd : gmap string day_entry) k :
  JournalAppBackend.calendar_add nd data cd !! k
  = if decide (nd = k)
    then Some {| notes := match cd !! nd with
                          | Some e => notes e ++ [data]
                          | None => [data]
                          end |}
    else cd !! k.
Proof.
  unfold JournalAppBackend.calendar_add.
  destruct (decide (nd = k)) as [<-|Hne].
  - destruct (cd !! nd) as [e|] eqn:He.
    + by rewrite lookup_alter_eq, He.
    + by rewrite lookup_alter_eq, lookup_insert_eq.
  - rewrite lookup_alter_ne by done.
    destruct (cd !! nd); [done|]. by rewrite lookup_insert_ne.
Qed.

Lemma calendar_loop_entries first last current (cd : gmap string day_entry) :
  forallb (readable isoformat_fields) current = true ->
  exists cd',
    JournalAppBackend.calendar_loop isoformat_fields first last current cd = Ok cd'
    /\ forall k,
         cd' !! k
         = entry_after (cd !! k) (day_notes isoformat_fields first last k current).
Proof.
  revert cd. induction current as [|data next IH]; intros cd Hr.
  - exists cd. split; [done|]. intros k. simpl.
    destruct (cd !! k) as [e|]; simpl; [|done].
    destruct e as [l]. simpl. by rewrite app_nil_r.
  - simpl in Hr. apply andb_true_iff in Hr as [Hd Hnext].
    unfold readable in Hd. simpl.
    destruct (deleted_truthy data) eqn:Hdel.
    + destruct (IH cd Hnext) as (cd' & Hloop & Hcd'). by exists cd'.
    + simpl in Hd. unfold within at 1. simpl.
      destruct (JournalAppBackend.fromisoformat isoformat_fields
                  (NotesLinkedList.date_portion (n_date data))) as [d|e] eqn:Hp;
        [|done].
      simpl.
      destruct (date_le first d && date_le d last) eqn:Hin.
      * destruct (IH (JournalAppBackend.calendar_add
                        (NotesLinkedList.date_portion (n_date data)) data cd) Hnext)
          as (cd' & Hloop & Hcd').
        exists cd'. split; [done|]. intros k.
        rewrite Hcd', calendar_add_lookup.
        destruct (decide (NotesLinkedList.date_portion (n_date data) = k)) as [<-|Hne].
        -- rewrite String.eqb_refl. simpl.
           destruct (cd !! NotesLinkedList.date_portion (n_date data)) as [e|]; simpl;
             [|done].
           by rewrite <- app_assoc.
        -- by rewrite (proj2 (String.eqb_neq _ _) Hne).
      * destruct (IH cd Hnext) as (cd' & Hloop & Hcd').
        exists cd'. split; [done|]. intros k. rewrite Hcd'.
        by rewrite andb_false_r.
Qed.

End CalendarProofs.

(** C8, as stated, fails for a month that is none ([13]) and where a note
    that is not deleted has a date the route cannot read: the route answers
    500 with the error, not a mapping. *)
Lemma calendar_rejects_month_and_date :
  JournalAppBackend.get_calendar_data iso_fields 2024 13 small_journal
  = (ErrorOf ValueError, 500)
  /\ JournalAppBackend.get_calendar_data iso_fields 2024 2
       (JournalAppBackend.Make (NotesLinkedList.Make [note_a; note_undated] 2) Absent)
     = (ErrorOf ValueError, 500).
Proof. split; reflexivity. Qed.

(** C8 (amended): for a year in [1..9999] and a month in [1..12], December
    9999 apart, and a list whose notes that are not deleted all have a
    readable date-portion, the route computes the month's first and last day
    (the day before the first of the next month, also across December) and
    answers 200 with a mapping that has, under each date-string, the notes
    that are not deleted, have that date-portion and are dated from the first
    to the last day, in list order; a date-string with no such note is not a
    key. *)
Theorem calendar_of_month (isoformat_fields : string -> option (Z * Z * Z))
    (app : JournalAppBackend.t) (y m : Z) :
  MINYEAR <= y <= MAXYEAR -> 1 <= m <= 12 -> ~ (y = MAXYEAR /\ m = 12) ->
  forallb (readable isoformat_fields)
    (NotesLinkedList.head (JournalAppBackend.notes_list app)) = true ->
  let first := PyDate y m 1 in
  let last := PyDate y m (days_in_month y m) in
  JournalAppBackend.month_range y m = Ok (first, last)
  /\ exists calendar_data,
       JournalAppBackend.get_calendar_data isoformat_fields y m app
       = (CalendarData calendar_data, 200)
       /\ forall k,
            calendar_data !! k
            = match day_notes isoformat_fields first last k
                      (NotesLinkedList.head (JournalAppBackend.notes_list app)) with
              | [] => None
              | n :: ns => Some {| notes := n :: ns |}
              end.
Proof.
  intros Hy Hm Hlast Hr first last.
  pose proof (month_range_Ok Hy Hm Hlast) as Hrange.
  split; [done|].
  destruct (calendar_loop_entries isoformat_fields first last _ ∅ Hr)
    as (cd' & Hloop & Hcd').
  exists cd'. split.
  - unfold JournalAppBackend.get_calendar_data. rewrite Hrange. simpl.
    fold first last. by rewrite Hloop.
  - intros k. rewrite Hcd', lookup_empty. simpl.
    by destruct (day_notes isoformat_fields first last k _).
Qed.

Lemma calendar_of_month_witness :
  forallb (readable iso_fields)
    (NotesLinkedList.head (JournalAppBackend.notes_list small_journal)) = true
  /\ exists calendar_data,
       JournalAppBackend.get_calendar_data iso_fields 2024 2 small_journal
       = (CalendarData calendar_data, 200)
       /\ calendar_data !! "2024-02-29"%string = Some {| notes := [note_a] |}
       /\ calendar_data !! "2024-03-01"%string = None.
Proof.
  assert (Hy : MINYEAR <= 2024 <= MAXYEAR) by (unfold MINYEAR, MAXYEAR; lia).
  assert (Hm : 1 <= 2 <= 12) by lia.
  assert (Hlast : ~ (2024 = MAXYEAR /\ 2 = 12)) by (intros [_ H]; discriminate H).
  assert (Hr : forallb (readable iso_fields)
                 (NotesLinkedList.head (JournalAppBackend.notes_list small_journal))
               = true) by reflexivity.
  destruct (calendar_of_month iso_fields small_journal 2024 2 Hy Hm Hlast Hr)
    as (_ & calendar_data & Hget & Hkeys).
  split; [exact Hr|].
  exists calendar_data. split; [exact Hget|].
  split; rewrite Hkeys; reflexivity.
Defined.

(** Between the first and the last day of a month are the dates of that
    year and month. *)
Lemma within_month_same_month y m y' m' d' d :
  check_date_args y' m' d' = Ok d ->
  date_le (PyDate y m 1) d && date_le d (PyDate y m (days_in_month y m))
  = (year d =? y) && (month d =? m).
Proof.
  unfold check_date_args.
  destruct ((MINYEAR <=? y') && (y' <=? MAXYEAR)); [|done].
  destruct ((1 <=? m') && (m' <=? 12)); [|done].
  destruct ((1 <=? d') && (d' <=? days_in_month y' m')) eqn:Hd; [|done].
  intros [= <-]. apply andb_true_iff in Hd as [Hd1 Hd2].
  unfold date_le. simpl.
  destruct (Z.eqb_spec y' y) as [->|Hy]; destruct (Z.eqb_spec m' m) as [->|Hm];
    repeat match goal with
           | |- context [?a <? ?b] => destruct (Z.ltb_spec a b)
           | |- context [?a =? ?b] => destruct (Z.eqb_spec a b)
           | |- context [?a <=? ?b] => destruct (Z.leb_spec a b)
           end; simpl; try done; lia.
Qed.

(** ** Checks on the sample data *)

Example date_portion_of_timestamp :
  NotesLinkedList.date_portion "2024-02-29T10:00:00" = "2024-02-29"%string.
Proof. reflexivity. Qed.

Example notes_by_date_includes_trashed :
  NotesLinkedList.get_notes_by_date "2023-12-31"
    (JournalAppBackend.notes_list small_journal) = [note_trashed].
Proof. reflexivity. Qed.

Example three_photos_and_none :
  length (NotesLinkedList.get_notes_with_photos two_notes) = 3%nat.
Proof. reflexivity. Qed.

Example trash_of_small_journal :
  JournalAppBackend.get_trash small_journal = (NoteList [note_trashed], 200).
Proof. reflexivity. Qed.

Example restore_active_note_not_found :
  fst (JournalAppBackend.restore_note Written 1 small_journal)
  = (Error "Not found in trash", 404).
Proof. reflexivity. Qed.

Example permanently_delete_trashed :
  NotesLinkedList.get_all_notes
    (JournalAppBackend.notes_list
       (snd (JournalAppBackend.permanently_delete Written 7 small_journal)))
  = [note_b; note_a].
Proof. reflexivity. Qed.

Example unreadable_file_loads_nothing :
  NotesLinkedList.get_all_notes
    (JournalAppBackend.notes_list (JournalAppBackend.init Unreadable)) = [].
Proof. reflexivity. Qed.

Example february_2024_ends_on_29 :
  JournalAppBackend.month_range 2024 2 = Ok (PyDate 2024 2 1, PyDate 2024 2 29).
Proof. reflexivity. Qed.

Example december_ends_on_31 :
  JournalAppBackend.month_range 2023 12 = Ok (PyDate 2023 12 1, PyDate 2023 12 31).
Proof. reflexivity. Qed.

(** The first of January of the year after [MAXYEAR] is no date: the route
    answers 500 for December 9999. *)
Example december_of_last_year :
  JournalAppBackend.get_calendar_data iso_fields 9999 12 small_journal
  = (ErrorOf ValueError, 500).
Proof. reflexivity. Qed.

(** * Further properties of the list and the routes *)

(** ** Lookups of the list *)

Lemma get_notes_by_date_loop_filter target_date current acc :
  NotesLinkedList.get_notes_by_date_loop target_date current acc
  = acc ++ List.filter (has_date target_date) current.
Proof.
  revert acc. induction current as [|data next IH]; intros acc; simpl.
  - by rewrite app_nil_r.
  - rewrite IH. unfold has_date at 2.
    destruct (String.eqb _ target_date); [|done].
    by rewrite <- app_assoc.
Qed.

(** X1: [delete_note] returns [True] exactly when some note carries the
    id; it then unlinks the first such note, keeps every other note in its
    place and takes one from [size]; otherwise the list is as it was. *)
Theorem delete_note_first_match (l : NotesLinkedList.t) (i : Z) :
  (fst (NotesLinkedList.delete_note i l) = true
   <-> exists n, n ∈ NotesLinkedList.head l /\ n_id n = i)
  /\ match NotesLinkedList.delete_note i l with
     | (true, l') =>
         exists l1 n l2,
           NotesLinkedList.head l = l1 ++ n :: l2
           /\ n_id n = i
           /\ Forall (fun m => n_id m <> i) l1
           /\ NotesLinkedList.head l' = l1 ++ l2
           /\ NotesLinkedList.size l' = NotesLinkedList.size l - 1
     | (false, l') => l' = l
     end.
Proof.
  rewrite delete_note_scan.
  destruct (NotesLinkedList.delete_loop i (NotesLinkedList.head l)) as [chain|] eqn:H.
  - apply delete_loop_Some in H as (l1 & n & l2 & Hl & Hn & H1 & ->). split.
    + split; [|done]. intros _. exists n. split; [|done].
      rewrite Hl. apply elem_of_app. right. left.
    + exists l1, n, l2. repeat split; [done..|].
      apply Forall_forall. by apply occurrences_zero.
  - split; [|done]. split; [done|].
    intros (n & Hin & Hn). exfalso.
    apply delete_loop_None in H.
    by apply (proj1 (occurrences_zero _ _) H n).
Qed.

(** X2: [delete_note] on the id of the note just added gives back the list
    as it was before the [add_note], [size] included. *)
Theorem add_then_delete_note (l : NotesLinkedList.t) (n : note) :
  NotesLinkedList.delete_note (n_id n) (NotesLinkedList.add_note n l) = (true, l).
Proof.
  unfold NotesLinkedList.delete_note, NotesLinkedList.add_note. simpl.
  rewrite Z.eqb_refl. destruct l as [chain sz]. simpl.
  do 2 f_equal. lia.
Qed.

(** X3: [get_deleted_notes] returns, in list order, exactly the notes whose
    [deleted] key is present and [True]. *)
Theorem get_deleted_notes_exact (l : NotesLinkedList.t) :
  NotesLinkedList.get_deleted_notes l
  = List.filter (fun n => bool_decide (n_deleted n = Some true))
      (NotesLinkedList.get_all_notes l).
Proof.
  unfold NotesLinkedList.get_deleted_notes.
  rewrite get_deleted_notes_loop_filter, get_all_notes_head. simpl.
  apply List.filter_ext. intros n. unfold deleted_truthy.
  by destruct (n_deleted n) as [[]|].
Qed.

Lemma filter_deleted_middle l1 n l2 :
  List.filter deleted_truthy (l1 ++ n :: l2)
  = List.filter deleted_truthy l1
    ++ (if deleted_truthy n then [n] else []) ++ List.filter deleted_truthy l2.
Proof.
  rewrite List.filter_app. simpl. by destruct (deleted_truthy n).
Qed.

(** X4: a [restore_note] that returns [True] takes exactly one note out of
    [get_deleted_notes] and keeps the number of notes; one that returns
    [False] leaves [get_deleted_notes] as it was. *)
Theorem restore_note_trash_count (l : NotesLinkedList.t) (i : Z) :
  match NotesLinkedList.restore_note i l with
  | (true, l') =>
      S (length (NotesLinkedList.get_deleted_notes l'))
      = length (NotesLinkedList.get_deleted_notes l)
      /\ length (NotesLinkedList.get_all_notes l')
         = length (NotesLinkedList.get_all_notes l)
  | (false, l') =>
      NotesLinkedList.get_deleted_notes l' = NotesLinkedList.get_deleted_notes l
  end.
Proof.
  unfold NotesLinkedList.restore_note.
  destruct (NotesLinkedList.restore_loop i (NotesLinkedList.head l)) as [chain|] eqn:H;
    [|done].
  apply restore_loop_Some in H as (l1 & n & l2 & Hl & Hn & Hd & H1 & ->).
  rewrite !get_deleted_notes_filter, !get_all_notes_head. simpl.
  rewrite Hl, !filter_deleted_middle, !length_app.
  unfold deleted_truthy at 2 5. rewrite Hd. simpl. split; lia.
Qed.

(** X5: [get_notes_by_date] returns, in list order, exactly the notes whose
    date-portion is the target, trashed ones included. *)
Theorem get_notes_by_date_exact (l : NotesLinkedList.t) (target_date : string) :
  NotesLinkedList.get_notes_by_date target_date l
  = List.filter
      (fun n => String.eqb (NotesLinkedList.date_portion (n_date n)) target_date)
      (NotesLinkedList.get_all_notes l).
Proof.
  unfold NotesLinkedList.get_notes_by_date.
  by rewrite get_notes_by_date_loop_filter, get_all_notes_head.
Qed.

(** X6: the date-portion has no ['T'], and the string is its date-portion
    alone or its date-portion, a ['T'] and a rest. *)
Theorem date_portion_split (s : string) :
  no_T (NotesLinkedList.date_portion s) = true
  /\ (s = NotesLinkedList.date_portion s
      \/ exists rest,
           s = String.append (NotesLinkedList.date_portion s) (String "T" rest)).
Proof.
  induction s as [|c s [IH1 IH2]]; simpl.
  - split; [done|]. by left.
  - destruct (Ascii.eqb_spec c "T"%char) as [->|Hc]; simpl.
    + split; [done|]. right. by exists s.
    + split.
      * rewrite IH1, andb_true_r. by apply negb_true_iff, Ascii.eqb_neq.
      * destruct IH2 as [IH2|[rest IH2]].
        -- left. by f_equal.
        -- right. exists rest. exact (f_equal (String c) IH2).
Qed.

(** ** Reading and creating notes through the routes *)

(** X7: [GET /api/notes] answers 200 with the notes whose date-portion is
    the [date] argument; without the argument, or with an empty one, it
    answers with every note, trashed ones included. *)
Theorem get_notes_by_query (date_filter : option string) (app : JournalAppBackend.t) :
  JournalAppBackend.get_notes date_filter app
  = (NoteList
       match date_filter with
       | Some (String c d) =>
           List.filter
             (fun n => String.eqb (NotesLinkedList.date_portion (n_date n)) (String c d))
             (NotesLinkedList.head (JournalAppBackend.notes_list app))
       | _ => NotesLinkedList.head (JournalAppBackend.notes_list app)
       end, 200).
Proof.
  unfold JournalAppBackend.get_notes, NotesLinkedList.get_notes_by_date.
  destruct date_filter as [[|c d]|]; simpl; rewrite ?get_all_notes_head; try done.
  by rewrite get_notes_by_date_loop_filter.
Qed.

Lemma string_truthy_nonempty o :
  string_truthy o = true -> String.eqb (default EmptyString o) EmptyString = false.
Proof. by destruct o as [[|c s]|]. Qed.

(** The note the [POST] route stores for an accepted request. *)
Lemma post_note_shape w now_iso now_ms note_data app :
  if string_truthy (r_text note_data) && string_truthy (r_mood note_data) then
    forallb complete
      (firstn 1 (NotesLinkedList.head
                   (JournalAppBackend.notes_list
                      (snd (JournalAppBackend.add_note w now_iso now_ms note_data app)))))
    = true
  else True.
Proof.
  unfold JournalAppBackend.add_note.
  destruct (string_truthy (r_text note_data)) eqn:Ht; [|done].
  destruct (string_truthy (r_mood note_data)) eqn:Hm; [|done].
  simpl. unfold complete. simpl.
  rewrite (string_truthy_nonempty _ Ht), (string_truthy_nonempty _ Hm).
  by destruct (r_photos note_data), (r_deleted note_data).
Qed.

(** X8: [POST /api/notes] with text and mood present and not empty answers
    201 with the stored note, puts it in front of the notes there were, adds
    one to [size] and tries to save: the file holds the new list when the
    write runs to its end, no readable JSON when it fails after the file was
    emptied, and is as it was when it could not be opened; the answer is 201
    in each case.  The stored note has the request's text and mood and its
    [photos] and [deleted] keys present.  Otherwise the route answers 400 and
    list and file are as they were. *)
Theorem post_note_effect (w : write_outcome) (now_iso : string) (now_ms : Z)
    (note_data : note_request) (app : JournalAppBackend.t) :
  let answer := JournalAppBackend.add_note w now_iso now_ms note_data app in
  if string_truthy (r_text note_data) && string_truthy (r_mood note_data) then
    exists stored,
      fst answer = (Success stored, 201)
      /\ NotesLinkedList.get_all_notes (JournalAppBackend.notes_list (snd answer))
         = stored :: NotesLinkedList.get_all_notes (JournalAppBackend.notes_list app)
      /\ NotesLinkedList.size (JournalAppBackend.notes_list (snd answer))
         = NotesLinkedList.size (JournalAppBackend.notes_list app) + 1
      /\ JournalAppBackend.data_file (snd answer)
         = match w with
           | Written =>
               Stored (stored
                       :: NotesLinkedList.get_all_notes (JournalAppBackend.notes_list app))
           | Truncated => Unreadable
           | NotOpened => JournalAppBackend.data_file app
           end
      /\ Some (n_text stored) = r_text note_data
      /\ Some (n_mood stored) = r_mood note_data
      /\ complete stored = true
  else answer = ((PostError "Text and mood required", 400), app).
Proof.
  intros answer. unfold answer, JournalAppBackend.add_note.
  destruct (string_truthy (r_text note_data)) eqn:Ht; [|done].
  destruct (string_truthy (r_mood note_data)) eqn:Hm; [|done].
  simpl. eexists. split; [done|].
  rewrite !get_all_notes_head. simpl.
  repeat split.
  - by destruct (r_text note_data) as [[|c s]|].
  - by destruct (r_mood note_data) as [[|c s]|].
  - unfold complete. simpl.
    rewrite (string_truthy_nonempty _ Ht), (string_truthy_nonempty _ Hm).
    by destruct (r_photos note_data), (r_deleted note_data).
Qed.



(** ** Persistence through the routes *)

Lemma backend_eta (app : JournalAppBackend.t) :
  {| JournalAppBackend.notes_list := JournalAppBackend.notes_list app;
     JournalAppBackend.data_file := JournalAppBackend.data_file app |} = app.
Proof. by destruct app. Qed.

Lemma run_route_cases c app :
  ((fst (run_route c app) = 200 \/ fst (run_route c app) = 201)
   /\ exists l,
        snd (run_route c app)
        = JournalAppBackend.save_data (call_outcome c)
            {| JournalAppBackend.notes_list := l;
               JournalAppBackend.data_file := JournalAppBackend.data_file app |})
  \/ ((fst (run_route c app) = 400 \/ fst (run_route c app) = 404)
      /\ snd (run_route c app) = app).
Proof.
  destruct c as [w now_iso now_ms note_data|w i|w i|w i]; simpl.
  - unfold JournalAppBackend.add_note.
    destruct (negb (string_truthy (r_text note_data))
              || negb (string_truthy (r_mood note_data))); simpl.
    + right. split; [by left | done].
    + left. split; [by right | by eexists].
  - unfold JournalAppBackend.delete_note.
    destruct (JournalAppBackend.delete_note_loop i _); simpl.
    + left. split; [by left | by eexists].
    + right. split; [by right | done].
  - unfold JournalAppBackend.restore_note, NotesLinkedList.restore_note.
    destruct (NotesLinkedList.restore_loop i _); simpl.
    + left. split; [by left | by eexists].
    + right. split; [by right | apply backend_eta].
  - unfold JournalAppBackend.permanently_delete. rewrite delete_note_scan.
    destruct (NotesLinkedList.delete_loop i _); simpl.
    + left. split; [by left | by eexists].
    + right. split; [by right | apply backend_eta].
Qed.

(** X10: each of the four routes that change notes either answers 200 or
    201 and has tried to save the list as it now is, or answers 400 or 404
    and leaves list and file as they were.  After a 200 or 201 the file holds
    the list when the write ran to its end; when the write failed after the
    file was emptied the file holds no readable JSON, and when the file could
    not be opened it is as it was: the answer does not tell which. *)
Theorem route_writes_through (c : route_call) (app : JournalAppBackend.t) :
  let answer := run_route c app in
  ((fst answer = 200 \/ fst answer = 201)
   /\ JournalAppBackend.data_file (snd answer)
      = match call_outcome c with
        | Written =>
            Stored (NotesLinkedList.get_all_notes
                      (JournalAppBackend.notes_list (snd answer)))
        | Truncated => Unreadable
        | NotOpened => JournalAppBackend.data_file app
        end)
  \/ ((fst answer = 400 \/ fst answer = 404) /\ snd answer = app).
Proof.
  intros answer. unfold answer.
  destruct (run_route_cases c app) as [[Hs [l Hl]]|[Hs Hsame]].
  - left. split; [done|]. rewrite Hl. by destruct (call_outcome c).
  - right. by split.
Qed.

Lemma init_Stored notes_data :
  JournalAppBackend.notes_list (JournalAppBackend.init (Stored notes_data))
  = {| NotesLinkedList.head := notes_data;
       NotesLinkedList.size := Z.of_nat (length notes_data) |}.
Proof.
  unfold JournalAppBackend.init, JournalAppBackend.load_data. simpl.
  unfold JournalAppBackend.load_loop.
  fold (add_notes (rev notes_data) NotesLinkedList.init).
  pose proof (add_notes_head (rev notes_data) NotesLinkedList.init) as Hh.
  pose proof (add_notes_size (rev notes_data) NotesLinkedList.init) as Hs.
  destruct (add_notes (rev notes_data) NotesLinkedList.init) as [chain sz].
  simpl in *. rewrite rev_involutive, app_nil_r in Hh. rewrite length_rev in Hs.
  by subst.
Qed.

(** X11: started on a file, the backend holds the file's records in file
    order with [size] their number, and no note when the file is absent or
    unreadable; the file itself is left as it is. *)
Theorem init_loads_file (f : file) :
  let app := JournalAppBackend.init f in
  JournalAppBackend.data_file app = f
  /\ NotesLinkedList.get_all_notes (JournalAppBackend.notes_list app)
     = match f with
       | Stored notes_data => notes_data
       | _ => []
       end
  /\ NotesLinkedList.size (JournalAppBackend.notes_list app)
     = Z.of_nat (length (NotesLinkedList.get_all_notes (JournalAppBackend.notes_list app))).
Proof.
  intros app. unfold app. destruct f as [| |notes_data]; [by repeat split..|].
  rewrite !get_all_notes_head, init_Stored. by repeat split.
Qed.

Lemma run_route_size c app :
  NotesLinkedList.size (JournalAppBackend.notes_list app)
  = Z.of_nat (length (NotesLinkedList.head (JournalAppBackend.notes_list app))) ->
  NotesLinkedList.size (JournalAppBackend.notes_list (snd (run_route c app)))
  = Z.of_nat (length (NotesLinkedList.head
                        (JournalAppBackend.notes_list (snd (run_route c app))))).
Proof.
  intros Hsz. destruct c as [w now_iso now_ms note_data|w i|w i|w i]; simpl.
  - unfold JournalAppBackend.add_note.
    destruct (negb (string_truthy (r_text note_data))
              || negb (string_truthy (r_mood note_data))); simpl; [done|].
    rewrite Hsz. lia.
  - unfold JournalAppBackend.delete_note.
    destruct (JournalAppBackend.delete_note_loop i _) as [chain|] eqn:H; simpl; [|done].
    apply delete_note_loop_Some in H as (l1 & n & l2 & Hl & _ & _ & ->).
    rewrite Hsz, Hl, !length_app. done.
  - unfold JournalAppBackend.restore_note, NotesLinkedList.restore_note.
    destruct (NotesLinkedList.restore_loop i _) as [chain|] eqn:H; simpl; [|done].
    apply restore_loop_Some in H as (l1 & n & l2 & Hl & _ & _ & _ & ->).
    rewrite Hsz, Hl, !length_app. done.
  - unfold JournalAppBackend.permanently_delete.
    pose proof (delete_note_length i (JournalAppBackend.notes_list app)) as Hd.
    destruct (NotesLinkedList.delete_note i (JournalAppBackend.notes_list app))
      as [[|] l']; simpl.
    + destruct Hd as [-> Hlen]. lia.
    + by subst.
Qed.

Lemma run_route_restart c app :
  written (call_outcome c) = true ->
  NotesLinkedList.size (JournalAppBackend.notes_list app)
  = Z.of_nat (length (NotesLinkedList.head (JournalAppBackend.notes_list app))) ->
  JournalAppBackend.notes_list (JournalAppBackend.init (JournalAppBackend.data_file app))
  = JournalAppBackend.notes_list app ->
  JournalAppBackend.notes_list
    (JournalAppBackend.init (JournalAppBackend.data_file (snd (run_route c app))))
  = JournalAppBackend.notes_list (snd (run_route c app)).
Proof.
  intros Hw Hsz Hre. pose proof (run_route_size c app Hsz) as Hsz'.
  destruct (run_route_cases c app) as [[_ [l Hl]]|[_ Hsame]].
  - rewrite Hl in *. destruct (call_outcome c); [|done..].
    unfold JournalAppBackend.save_data in *.
    cbn [JournalAppBackend.data_file JournalAppBackend.notes_list] in *.
    rewrite get_all_notes_head, init_Stored.
    destruct l as [chain sz]. simpl in *. by subst.
  - by rewrite Hsame.
Qed.

(** X12: after any sequence of create, soft-delete, restore and
    permanent-delete calls whose writes all run to their end, on a backend
    started on any file, a restart on the file as it then is gives the list
    as it then is, [size] included, and [size] is the number of notes. *)
Theorem restart_reloads_list (f : file) (cs : list route_call) :
  forallb (fun c => written (call_outcome c)) cs = true ->
  let app := run_routes cs (JournalAppBackend.init f) in
  JournalAppBackend.notes_list (JournalAppBackend.init (JournalAppBackend.data_file app))
  = JournalAppBackend.notes_list app
  /\ NotesLinkedList.size (JournalAppBackend.notes_list app)
     = Z.of_nat (length (NotesLinkedList.get_all_notes (JournalAppBackend.notes_list app))).
Proof.
  intros Hw app. unfold app. clear app.
  assert (Hstart :
    JournalAppBackend.notes_list
      (JournalAppBackend.init (JournalAppBackend.data_file (JournalAppBackend.init f)))
    = JournalAppBackend.notes_list (JournalAppBackend.init f)
    /\ NotesLinkedList.size (JournalAppBackend.notes_list (JournalAppBackend.init f))
       = Z.of_nat (length (NotesLinkedList.head
                             (JournalAppBackend.notes_list (JournalAppBackend.init f))))).
  { destruct f as [| |notes_data]; [done..|].
    change (JournalAppBackend.data_file (JournalAppBackend.init (Stored notes_data)))
      with (Stored notes_data).
    by rewrite init_Stored. }
  revert Hstart. generalize (JournalAppBackend.init f) as app.
  induction cs as [|c cs IH]; intros app [Hre Hsz].
  - rewrite get_all_notes_head. by split.
  - simpl in Hw. apply andb_true_iff in Hw as [Hc Hcs].
    unfold run_routes in *. simpl fold_left. apply (IH Hcs). split.
    + by apply run_route_restart.
    + by apply run_route_size.
Qed.

Lemma restart_reloads_list_witness :
  JournalAppBackend.notes_list
    (JournalAppBackend.init
       (JournalAppBackend.data_file
          (run_routes [PostNote Written "2024-03-01T09:00:00" 1709283600000
                         request_minimal;
                       SoftDelete Written 1709283600000;
                       Purge Written 5]
             (JournalAppBackend.init (Stored [note_b; note_a])))))
  = JournalAppBackend.notes_list
      (run_routes [PostNote Written "2024-03-01T09:00:00" 1709283600000 request_minimal;
                   SoftDelete Written 1709283600000;
                   Purge Written 5]
         (JournalAppBackend.init (Stored [note_b; note_a]))).
Proof.
  apply (restart_reloads_list (Stored [note_b; note_a])
           [PostNote Written "2024-03-01T09:00:00" 1709283600000 request_minimal;
            SoftDelete Written 1709283600000;
            Purge Written 5]).
  reflexivity.
Defined.

Lemma complete_set_deleted b n :
  complete n = true -> complete (set_deleted b n) = true.
Proof.
  unfold complete. simpl. destruct (n_deleted n); [|by rewrite andb_false_r].
  done.
Qed.

Lemma forallb_complete_middle l1 n l2 b :
  forallb complete (l1 ++ n :: l2) = true ->
  forallb complete (l1 ++ set_deleted b n :: l2) = true.
Proof.
  rewrite !forallb_app. simpl. intros H.
  apply andb_true_iff in H as [H1 H2]. apply andb_true_iff in H2 as [Hn H2].
  by rewrite H1, H2, (complete_set_deleted b n Hn).
Qed.

Lemma run_route_complete c app :
  forallb complete (NotesLinkedList.head (JournalAppBackend.notes_list app)) = true ->
  forallb complete
    (NotesLinkedList.head (JournalAppBackend.notes_list (snd (run_route c app)))) = true.
Proof.
  intros Hc. destruct c as [w now_iso now_ms note_data|w i|w i|w i]; simpl.
  - pose proof (post_note_shape w now_iso now_ms note_data app) as Hp.
    unfold JournalAppBackend.add_note in *.
    destruct (string_truthy (r_text note_data)) eqn:Ht; [|done].
    destruct (string_truthy (r_mood note_data)) eqn:Hm; [|done].
    simpl in *. apply andb_true_iff. split; [|exact Hc].
    by rewrite andb_true_r in Hp.
  - unfold JournalAppBackend.delete_note.
    destruct (JournalAppBackend.delete_note_loop i _) as [chain|] eqn:H; simpl; [|done].
    apply delete_note_loop_Some in H as (l1 & n & l2 & Hl & _ & _ & ->).
    rewrite Hl in Hc. by apply forallb_complete_middle.
  - unfold JournalAppBackend.restore_note, NotesLinkedList.restore_note.
    destruct (NotesLinkedList.restore_loop i _) as [chain|] eqn:H; simpl; [|done].
    apply restore_loop_Some in H as (l1 & n & l2 & Hl & _ & _ & _ & ->).
    rewrite Hl in Hc. by apply forallb_complete_middle.
  - unfold JournalAppBackend.permanently_delete. rewrite delete_note_scan.
    destruct (NotesLinkedList.delete_loop i _) as [chain|] eqn:H; simpl; [|done].
    apply delete_loop_Some in H as (l1 & n & l2 & Hl & _ & _ & ->).
    rewrite Hl in Hc. rewrite forallb_app in *. simpl in Hc.
    apply andb_true_iff in Hc as [H1 H2]. apply andb_true_iff in H2 as [_ H2].
    by rewrite H1, H2.
Qed.

(** X13: when every note of the list has a text and a mood that are not
    empty and its [photos] and [deleted] keys present, so has every note
    after any sequence of create, soft-delete, restore and permanent-delete
    calls, however their writes end. *)
Theorem routes_keep_notes_complete (cs : list route_call) (app : JournalAppBackend.t) :
  forallb complete (NotesLinkedList.head (JournalAppBackend.notes_list app)) = true ->
  forallb complete
    (NotesLinkedList.head (JournalAppBackend.notes_list (run_routes cs app))) = true.
Proof.
  revert app. induction cs as [|c cs IH]; intros app Hc; [done|].
  unfold run_routes in *. simpl fold_left. apply IH. by apply run_route_complete.
Qed.

Lemma routes_keep_notes_complete_witness :
  forallb complete
    (NotesLinkedList.head
       (JournalAppBackend.notes_list
          (run_routes [PostNote Written "2024-03-01T09:00:00" 1709283600000
                         request_minimal;
                       SoftDelete Truncated 1709283600000;
                       PostNote Written "2024-03-01T09:00:01" 1709283601000
                         request_no_mood;
                       Restore NotOpened 1709283600000]
             (JournalAppBackend.init Absent)))) = true.
Proof.
  apply (routes_keep_notes_complete _ (JournalAppBackend.init Absent)).
  reflexivity.
Defined.

(** X14: when some note carries the id, the soft-delete route leaves a
    note with that id in [get_deleted_notes] and keeps the number of notes;
    a second soft delete of the id answers 200 again and leaves the list as
    it is, and, when its write ends as the first did, the file too. *)
Theorem soft_delete_into_trash (w1 w2 : write_outcome) (app : JournalAppBackend.t)
    (i : Z) :
  (exists n, n ∈ NotesLinkedList.head (JournalAppBackend.notes_list app) /\ n_id n = i) ->
  let app1 := snd (JournalAppBackend.delete_note w1 i app) in
  (exists n,
     n ∈ NotesLinkedList.get_deleted_notes (JournalAppBackend.notes_list app1)
     /\ n_id n = i)
  /\ length (NotesLinkedList.get_all_notes (JournalAppBackend.notes_list app1))
     = length (NotesLinkedList.get_all_notes (JournalAppBackend.notes_list app))
  /\ fst (JournalAppBackend.delete_note w2 i app1) = (Message "Moved to trash", 200)
  /\ JournalAppBackend.notes_list (snd (JournalAppBackend.delete_note w2 i app1))
     = JournalAppBackend.notes_list app1
  /\ JournalAppBackend.delete_note w1 i app1 = ((Message "Moved to trash", 200), app1).
Proof.
  intros (m & Hin & Hm) app1.
  assert (Hocc : occurrences i (NotesLinkedList.head (JournalAppBackend.notes_list app))
                 <> 0%nat).
  { intros H0. by apply (proj1 (occurrences_zero _ _) H0 m). }
  unfold app1, JournalAppBackend.delete_note.
  destruct (JournalAppBackend.delete_note_loop i
              (NotesLinkedList.head (JournalAppBackend.notes_list app)))
    as [chain|] eqn:H.
  2: { by apply delete_note_loop_None in H. }
  apply delete_note_loop_Some in H as (l1 & n & l2 & Hl & Hn & H1 & ->).
  cbn [snd JournalAppBackend.save_data JournalAppBackend.notes_list
       JournalAppBackend.data_file NotesLinkedList.head NotesLinkedList.size].
  rewrite !get_all_notes_head, get_deleted_notes_filter.
  cbn [NotesLinkedList.head].
  rewrite (delete_note_loop_at i l1 (set_deleted true n) l2 H1 Hn).
  split; [|split; [|split; [|split]]].
  - exists (set_deleted true n). split; [|done].
    apply list_elem_of_In, List.filter_In. split; [|done].
    apply in_or_app. right. by left.
  - rewrite Hl, !length_app. done.
  - done.
  - done.
  - cbn [snd JournalAppBackend.save_data JournalAppBackend.notes_list
         JournalAppBackend.data_file NotesLinkedList.head NotesLinkedList.size].
    rewrite ?get_all_notes_head. cbn [NotesLinkedList.head].
    by destruct w1.
Qed.

Lemma soft_delete_into_trash_witness :
  JournalAppBackend.delete_note Written 1
    (snd (JournalAppBackend.delete_note Written 1 small_journal))
  = ((Message "Moved to trash", 200),
     snd (JournalAppBackend.delete_note Written 1 small_journal)).
Proof.
  apply (soft_delete_into_trash Written Truncated small_journal 1).
  exists note_a. split; [|reflexivity].
  apply elem_of_cons. right. apply elem_of_cons. by left.
Defined.

(** ** The calendar route, its errors and its months *)

Lemma month_served_bounds y m :
  month_served y m = true ->
  MINYEAR <= y <= MAXYEAR /\ 1 <= m <= 12 /\ ~ (y = MAXYEAR /\ m = 12).
Proof.
  unfold month_served. intros H.
  repeat (apply andb_true_iff in H as [H ?]).
  repeat split; lia.
Qed.

Lemma month_served_fits y m :
  month_served y m = true -> fits_c_int y && fits_c_int m = true.
Proof.
  intros H. apply month_served_bounds in H as (Hy & Hm & _).
  rewrite !fits_c_int_small by (unfold MINYEAR, MAXYEAR in *; lia). done.
Qed.

Lemma month_range_rejects y m :
  month_served y m = false ->
  JournalAppBackend.month_range y m
  = Raise (if fits_c_int y && fits_c_int m then ValueError else OverflowError).
Proof.
  unfold month_served, JournalAppBackend.month_range, mk_date. intros H.
  change (fits_c_int 1) with true. rewrite andb_true_r.
  destruct (fits_c_int y && fits_c_int m); [|done].
  unfold check_date_args.
  destruct (MINYEAR <=? y) eqn:H1; [|done].
  destruct (y <=? MAXYEAR) eqn:H2; [|done].
  destruct (1 <=? m) eqn:H3; [|done].
  destruct (m <=? 12) eqn:H4; [|done].
  simpl in H. apply negb_false_iff, andb_true_iff in H as [Hy Hm].
  apply Z.eqb_eq in Hy, Hm. by subst.
Qed.

Lemma fromisoformat_raises isoformat_fields s e :
  JournalAppBackend.fromisoformat isoformat_fields s = Raise e -> e = ValueError.
Proof.
  unfold JournalAppBackend.fromisoformat, check_date_args.
  destruct (isoformat_fields s) as [[[y m] d]|]; [|by intros [= <-]].
  repeat match goal with |- context [if ?b then _ else _] => destruct b end;
    by intros [= <-].
Qed.

Lemma calendar_loop_unreadable isoformat_fields first last current
    (cd : gmap string day_entry) :
  forallb (readable isoformat_fields) current = false ->
  JournalAppBackend.calendar_loop isoformat_fields first last current cd
  = Raise ValueError.
Proof.
  revert cd. induction current as [|data next IH]; intros cd; [done|].
  simpl. unfold readable at 1.
  destruct (deleted_truthy data); simpl; [by apply IH|].
  destruct (JournalAppBackend.fromisoformat isoformat_fields
              (NotesLinkedList.date_portion (n_date data))) as [d|e] eqn:Hp; simpl.
  - intros H. destruct (date_le first d && date_le d last); by apply IH.
  - intros _. by rewrite (fromisoformat_raises _ _ _ Hp).
Qed.

(** X15: the calendar route answers 200 with a mapping when the year is in
    [1..9999], the month in [1..12] and not December 9999, and every note that
    is not deleted has a date-portion the reader accepts.  In every other case
    it answers 500: with an [OverflowError] when the year or the month does
    not fit a C integer, which is found before anything else is looked at,
    and with a [ValueError] otherwise. *)
Theorem calendar_answer (isoformat_fields : string -> option (Z * Z * Z))
    (app : JournalAppBackend.t) (y m : Z) :
  if month_served y m
     && forallb (readable isoformat_fields)
          (NotesLinkedList.head (JournalAppBackend.notes_list app))
  then exists calendar_data,
         JournalAppBackend.get_calendar_data isoformat_fields y m app
         = (CalendarData calendar_data, 200)
  else JournalAppBackend.get_calendar_data isoformat_fields y m app
       = (ErrorOf (if fits_c_int y && fits_c_int m then ValueError else OverflowError),
          500).
Proof.
  unfold JournalAppBackend.get_calendar_data.
  destruct (month_served y m) eqn:Hs; simpl.
  - rewrite (month_served_fits y m Hs).
    apply month_served_bounds in Hs as (Hy & Hm & Hlast).
    rewrite (month_range_Ok Hy Hm Hlast). simpl.
    destruct (forallb (readable isoformat_fields) _) eqn:Hr.
    + destruct (calendar_loop_entries isoformat_fields (PyDate y m 1)
                  (PyDate y m (days_in_month y m)) _ ∅ Hr) as (cd & -> & _).
      by exists cd.
    + by rewrite calendar_loop_unreadable.
  - by rewrite month_range_rejects.
Qed.

Example calendar_year_beyond_c_int :
  JournalAppBackend.get_calendar_data iso_fields 2147483648 1 small_journal
  = (ErrorOf OverflowError, 500).
Proof. reflexivity. Qed.

Lemma within_dated_in isoformat_fields y m s :
  within isoformat_fields (PyDate y m 1) (PyDate y m (days_in_month y m)) s
  = dated_in isoformat_fields y m s.
Proof.
  unfold within, dated_in.
  destruct (JournalAppBackend.fromisoformat isoformat_fields s) as [d|e] eqn:Hp;
    [|done].
  unfold JournalAppBackend.fromisoformat in Hp.
  destruct (isoformat_fields s) as [[[y' m'] d']|]; [|done].
  by apply (within_month_same_month y m y' m' d').
Qed.

(** X16: for a year and month the calendar route serves and a list whose
    notes that are not deleted all have a readable date-portion, the mapping
    has under each date-string exactly the notes that are not deleted, have
    that date-portion and are dated in that year and month, in list order;
    a date-string with no such note is not a key. *)
Theorem calendar_lists_month (isoformat_fields : string -> option (Z * Z * Z))
    (app : JournalAppBackend.t) (y m : Z) :
  month_served y m = true ->
  forallb (readable isoformat_fields)
    (NotesLinkedList.head (JournalAppBackend.notes_list app)) = true ->
  exists calendar_data,
    JournalAppBackend.get_calendar_data isoformat_fields y m app
    = (CalendarData calendar_data, 200)
    /\ forall k,
         calendar_data !! k
         = match List.filter
                   (fun n =>
                      negb (deleted_truthy n)
                      && String.eqb (NotesLinkedList.date_portion (n_date n)) k
                      && dated_in isoformat_fields y m
                           (NotesLinkedList.date_portion (n_date n)))
                   (NotesLinkedList.get_all_notes (JournalAppBackend.notes_list app)) with
           | [] => None
           | n :: ns => Some {| notes := n :: ns |}
           end.
Proof.
  intros Hs Hr. apply month_served_bounds in Hs as (Hy & Hm & Hlast).
  destruct (calendar_loop_entries isoformat_fields (PyDate y m 1)
              (PyDate y m (days_in_month y m)) _ ∅ Hr) as (cd & Hloop & Hcd).
  exists cd. split.
  - unfold JournalAppBackend.get_calendar_data.
    rewrite (month_range_Ok Hy Hm Hlast). simpl. by rewrite Hloop.
  - intros k. rewrite Hcd, lookup_empty, get_all_notes_head. simpl.
    unfold day_notes.
    rewrite (List.filter_ext _
               (fun n =>
                  negb (deleted_truthy n)
                  && String.eqb (NotesLinkedList.date_portion (n_date n)) k
                  && dated_in isoformat_fields y m
                       (NotesLinkedList.date_portion (n_date n)))).
    + by destruct (List.filter _ _).
    + intros n. by rewrite within_dated_in.
Qed.

Lemma calendar_lists_month_witness :
  month_served 2023 12 = true
  /\ exists calendar_data,
       JournalAppBackend.get_calendar_data iso_fields 2023 12
         (JournalAppBackend.Make
            (NotesLinkedList.Make [note_b; set_deleted false note_trashed] 2) Absent)
       = (CalendarData calendar_data, 200)
       /\ calendar_data !! "2023-12-31"%string
          = Some {| notes := [set_deleted false note_trashed] |}.
Proof.
  split; [reflexivity|].
  destruct (calendar_lists_month iso_fields
              (JournalAppBackend.Make
                 (NotesLinkedList.Make [note_b; set_deleted false note_trashed] 2) Absent)
              2023 12 eq_refl eq_refl) as (calendar_data & Hget & Hkeys).
  exists calendar_data. split; [exact Hget|].
  rewrite Hkeys. reflexivity.
Defined.

(** ** The photo route *)

Section PhotoProofs.

Variable isoformat_fields : string -> option (Z * Z * Z).

(** The loop keeps the records that are not deleted and pass both filters,
    as long as the date filter answers for each record it looks at. *)
Lemma get_photos_loop_filter date_filter mood_filter today (skips : string -> bool)
    all_photos filtered :
  (forall p, In p all_photos -> p_deleted p = false ->
     JournalAppBackend.date_filter_skips isoformat_fields date_filter today (photo_day p)
     = Ok (skips (photo_day p))) ->
  JournalAppBackend.get_photos_loop isoformat_fields date_filter mood_filter today
    all_photos filtered
  = Ok (filtered
        ++ List.filter (fun p => negb (p_deleted p) && negb (skips (photo_day p))
                                 && mood_passes mood_filter p) all_photos).
Proof.
  revert filtered. induction all_photos as [|photo rest IH]; intros filtered Hs; simpl.
  - by rewrite app_nil_r.
  - assert (Hrest : forall p, In p rest -> p_deleted p = false ->
              JournalAppBackend.date_filter_skips isoformat_fields date_filter today
                (photo_day p) = Ok (skips (photo_day p)))
      by (intros p Hp; apply Hs; by right).
    destruct (p_deleted photo) eqn:Hd; simpl; [by apply IH|].
    fold (photo_day photo). rewrite (Hs photo (or_introl eq_refl) Hd). simpl.
    destruct (skips (photo_day photo)); simpl; [by apply IH|].
    replace (negb (String.eqb mood_filter "all")
             && negb (String.eqb (p_mood photo) mood_filter))
      with (negb (mood_passes mood_filter photo))
      by (unfold mood_passes; by rewrite negb_orb).
    destruct (mood_passes mood_filter photo); simpl; [|by apply IH].
    rewrite IH by done. by rewrite <- app_assoc.
Qed.

(** X17: with a date filter that is absent or none of [today], [week] and
    [month], the photo route returns the records of [get_notes_with_photos]
    that are not deleted and pass the mood filter, in their order. *)
Theorem photos_without_date_filter (date_filter mood_filter : option string)
    (today : pydate) (app : JournalAppBackend.t) :
  String.eqb (default "all"%string date_filter) "today"
  || String.eqb (default "all"%string date_filter) "week"
  || String.eqb (default "all"%string date_filter) "month" = false ->
  JournalAppBackend.get_photos isoformat_fields date_filter mood_filter today app
  = Ok (List.filter
          (fun p => negb (p_deleted p) && mood_passes (default "all"%string mood_filter) p)
          (NotesLinkedList.get_notes_with_photos (JournalAppBackend.notes_list app))).
Proof.
  intros H. apply orb_false_iff in H as [H Hm]. apply orb_false_iff in H as [Ht Hw].
  unfold JournalAppBackend.get_photos.
  rewrite (get_photos_loop_filter _ _ _ (fun _ => false)).
  - simpl. f_equal. apply List.filter_ext. intros p. by rewrite andb_true_r.
  - intros p _ _. unfold JournalAppBackend.date_filter_skips. by rewrite Ht, Hw, Hm.
Qed.

(** X18: with the date filter [today], the photo route returns the records
    that are not deleted, have the ISO form of today's date as date-portion
    and pass the mood filter; it reads no date and raises nothing. *)
Theorem photos_of_today (mood_filter : option string) (today : pydate)
    (app : JournalAppBackend.t) :
  JournalAppBackend.get_photos isoformat_fields (Some "today"%string) mood_filter today app
  = Ok (List.filter
          (fun p => negb (p_deleted p)
                    && String.eqb (photo_day p) (date_isoformat today)
                    && mood_passes (default "all"%string mood_filter) p)
          (NotesLinkedList.get_notes_with_photos (JournalAppBackend.notes_list app))).
Proof.
  unfold JournalAppBackend.get_photos.
  rewrite (get_photos_loop_filter _ _ _
             (fun s => negb (String.eqb s (date_isoformat today)))).
  - simpl. f_equal. apply List.filter_ext. intros p. by rewrite negb_involutive.
  - intros p _ _. unfold JournalAppBackend.date_filter_skips. simpl.
    by destruct (String.eqb (photo_day p) (date_isoformat today)).
Qed.

(** X19: with the date filter [week], the photo route returns the records
    that are not deleted, whose date-portion is not before, as a string, the
    ISO form of the day seven days before today, and that pass the mood
    filter; a later date-portion, also one after today, is kept. *)
Theorem photos_of_week (mood_filter : option string) (today week_ago : pydate)
    (app : JournalAppBackend.t) :
  minus_days 7 today = Ok week_ago ->
  JournalAppBackend.get_photos isoformat_fields (Some "week"%string) mood_filter today app
  = Ok (List.filter
          (fun p => negb (p_deleted p)
                    && negb (String.ltb (photo_day p) (date_isoformat week_ago))
                    && mood_passes (default "all"%string mood_filter) p)
          (NotesLinkedList.get_notes_with_photos (JournalAppBackend.notes_list app))).
Proof.
  intros Hw. unfold JournalAppBackend.get_photos.
  rewrite (get_photos_loop_filter _ _ _
             (fun s => String.ltb s (date_isoformat week_ago))); [done|].
  intros p _ _. unfold JournalAppBackend.date_filter_skips.
  change (String.eqb (default "all"%string (Some "week"%string)) "today") with false.
  change (String.eqb (default "all"%string (Some "week"%string)) "week") with true.
  cbn [andb]. by rewrite Hw.
Qed.

(** X20: with the date filter [month], when every record that is not
    deleted has a readable date-portion, the photo route returns the records
    that are not deleted, are dated in today's year and month and pass the
    mood filter. *)
Theorem photos_of_month (mood_filter : option string) (today : pydate)
    (app : JournalAppBackend.t) :
  forallb (photo_readable isoformat_fields)
    (NotesLinkedList.get_notes_with_photos (JournalAppBackend.notes_list app)) = true ->
  JournalAppBackend.get_photos isoformat_fields (Some "month"%string) mood_filter today app
  = Ok (List.filter
          (fun p => negb (p_deleted p)
                    && dated_in isoformat_fields (year today) (month today) (photo_day p)
                    && mood_passes (default "all"%string mood_filter) p)
          (NotesLinkedList.get_notes_with_photos (JournalAppBackend.notes_list app))).
Proof.
  intros Hr. unfold JournalAppBackend.get_photos.
  rewrite (get_photos_loop_filter _ _ _
             (fun s => negb (dated_in isoformat_fields (year today) (month today) s))).
  - simpl. f_equal. apply List.filter_ext. intros p. by rewrite negb_involutive.
  - intros p Hp Hd.
    apply (proj1 (forallb_forall _ _) Hr) in Hp. unfold photo_readable in Hp.
    rewrite Hd in Hp. simpl in Hp.
    unfold JournalAppBackend.date_filter_skips, dated_in.
    change (String.eqb (default "all"%string (Some "month"%string)) "today") with false.
    change (String.eqb (default "all"%string (Some "month"%string)) "week") with false.
    change (String.eqb (default "all"%string (Some "month"%string)) "month") with true.
    cbn [andb].
    destruct (JournalAppBackend.fromisoformat isoformat_fields (photo_day p)) as [d|e];
      [|done].
    simpl. by destruct (month d =? month today), (year d =? year today).
Qed.

Lemma get_photos_loop_unreadable mood_filter today all_photos filtered :
  forallb (photo_readable isoformat_fields) all_photos = false ->
  JournalAppBackend.get_photos_loop isoformat_fields "month" mood_filter today
    all_photos filtered
  = Raise ValueError.
Proof.
  revert filtered. induction all_photos as [|photo rest IH]; intros filtered; [done|].
  simpl. unfold photo_readable at 1.
  destruct (p_deleted photo); simpl; [by apply IH|].
  fold (photo_day photo).
  unfold JournalAppBackend.date_filter_skips.
  change (String.eqb "month" "today") with false.
  change (String.eqb "month" "week") with false.
  change (String.eqb "month" "month") with true.
  cbn [andb].
  destruct (JournalAppBackend.fromisoformat isoformat_fields (photo_day photo))
    as [d|e] eqn:Hp; simpl.
  - intros H.
    destruct (negb (month d =? month today) || negb (year d =? year today)); simpl;
      [by apply IH|].
    destruct (negb (String.eqb mood_filter "all")
              && negb (String.eqb (p_mood photo) mood_filter)); by apply IH.
  - intros _. by rewrite (fromisoformat_raises _ _ _ Hp).
Qed.

(** X21: with the date filter [month], a record that is not deleted and
    has a date-portion the reader rejects makes the photo route raise a
    [ValueError], whatever the mood filter and the other records. *)
Theorem photos_of_month_unreadable (mood_filter : option string) (today : pydate)
    (app : JournalAppBackend.t) :
  forallb (photo_readable isoformat_fields)
    (NotesLinkedList.get_notes_with_photos (JournalAppBackend.notes_list app)) = false ->
  JournalAppBackend.get_photos isoformat_fields (Some "month"%string) mood_filter today app
  = Raise ValueError.
Proof.
  intros Hr. unfold JournalAppBackend.get_photos.
  by apply get_photos_loop_unreadable.
Qed.

Lemma get_photos_loop_sublist date_filter mood_filter today all_photos filtered ps :
  JournalAppBackend.get_photos_loop isoformat_fields date_filter mood_filter today
    all_photos filtered = Ok ps ->
  exists kept,
    ps = filtered ++ kept
    /\ sublist kept all_photos
    /\ Forall (fun p => p_deleted p = false /\ mood_passes mood_filter p = true) kept.
Proof.
  revert filtered. induction all_photos as [|photo rest IH]; intros filtered; simpl.
  - intros [= <-]. exists []. by rewrite app_nil_r.
  - assert (Hskip : forall acc,
              JournalAppBackend.get_photos_loop isoformat_fields date_filter mood_filter
                today rest acc = Ok ps ->
              acc = filtered ->
              exists kept,
                ps = filtered ++ kept /\ sublist kept (photo :: rest)
                /\ Forall (fun p => p_deleted p = false
                                    /\ mood_passes mood_filter p = true) kept).
    { intros acc H ->. destruct (IH _ H) as (kept & -> & Hsub & Hall).
      exists kept. repeat split; [|done]. by apply sublist_cons. }
    destruct (p_deleted photo) eqn:Hd; [by intros H; apply (Hskip _ H)|].
    destruct (JournalAppBackend.date_filter_skips isoformat_fields date_filter today _)
      as [[|]|e]; simpl; [by intros H; apply (Hskip _ H)| |done].
    destruct (String.eqb mood_filter "all") eqn:Hall; simpl.
    + intros H. destruct (IH _ H) as (kept & -> & Hsub & Hk).
      exists (photo :: kept). rewrite <- app_assoc. repeat split; [by apply sublist_skip|].
      constructor; [|done]. split; [done|]. unfold mood_passes. by rewrite Hall.
    + destruct (String.eqb (p_mood photo) mood_filter) eqn:Hmood; simpl;
        [|by intros H; apply (Hskip _ H)].
      intros H. destruct (IH _ H) as (kept & -> & Hsub & Hk).
      exists (photo :: kept). rewrite <- app_assoc. repeat split; [by apply sublist_skip|].
      constructor; [|done]. split; [done|]. unfold mood_passes. by rewrite Hmood, orb_true_r.
Qed.

(** X22: whatever the filters, what the photo route returns is a
    subsequence of [get_notes_with_photos] in which no record is deleted and
    every record passes the mood filter. *)
Theorem photos_never_deleted (date_filter mood_filter : option string) (today : pydate)
    (app : JournalAppBackend.t) (ps : list photo) :
  JournalAppBackend.get_photos isoformat_fields date_filter mood_filter today app = Ok ps ->
  sublist ps (NotesLinkedList.get_notes_with_photos (JournalAppBackend.notes_list app))
  /\ Forall (fun p => p_deleted p = false
                      /\ mood_passes (default "all"%string mood_filter) p = true) ps.
Proof.
  intros H. apply get_photos_loop_sublist in H as (kept & -> & Hsub & Hall).
  by split.
Qed.

End PhotoProofs.

Lemma photos_without_date_filter_witness :
  JournalAppBackend.get_photos iso_fields None (Some "happy"%string) (PyDate 2024 3 8)
    photo_journal
  = Ok (photo_records note_a).
Proof.
  exact (photos_without_date_filter iso_fields None (Some "happy"%string)
           (PyDate 2024 3 8) photo_journal eq_refl).
Defined.

Lemma photos_of_week_witness :
  minus_days 7 (PyDate 2024 3 5) = Ok (PyDate 2024 2 27)
  /\ JournalAppBackend.get_photos iso_fields (Some "week"%string) None (PyDate 2024 3 5)
       photo_journal
     = Ok (photo_records note_a).
Proof.
  split; [reflexivity|].
  exact (photos_of_week iso_fields None (PyDate 2024 3 5) (PyDate 2024 2 27)
           photo_journal eq_refl).
Defined.

Lemma photos_of_month_witness :
  JournalAppBackend.get_photos iso_fields (Some "month"%string) None (PyDate 2024 2 1)
    photo_journal
  = Ok (photo_records note_a).
Proof.
  exact (photos_of_month iso_fields None (PyDate 2024 2 1) photo_journal eq_refl).
Defined.

Lemma photos_of_month_unreadable_witness :
  JournalAppBackend.get_photos iso_fields (Some "month"%string) None (PyDate 2024 2 1)
    (JournalAppBackend.Make (NotesLinkedList.Make [note_a; note_undated_photo] 2) Absent)
  = Raise ValueError.
Proof.
  exact (photos_of_month_unreadable iso_fields None (PyDate 2024 2 1)
           (JournalAppBackend.Make (NotesLinkedList.Make [note_a; note_undated_photo] 2)
              Absent)
           eq_refl).
Defined.

Lemma photos_never_deleted_witness :
  Forall (fun p => p_deleted p = false /\ mood_passes "all" p = true)
    (photo_records note_a).
Proof.
  apply (photos_never_deleted iso_fields (Some "today"%string) None (PyDate 2024 2 29)
           photo_journal (photo_records note_a)).
  reflexivity.
Defined.
